(** * terraform-provider-quismon: the API client and the reconciliation layer

    A shallow embedding of [internal/client] and [internal/provider] and the
    properties of the specification that concern them.

    Conventions of the embedding.
    - Go strings and byte slices are [string]; [int] and [int64] are [Z].
    - A framework value ([types.String], [types.Bool], [types.Int64],
      [types.Map], [types.List]) is null, unknown or known: [tfvalue].
    - [map[string]interface{}] is an optional [gmap string json]: [None] is the
      nil map.  A value of type [interface{}] produced by [encoding/json] is
      kept as the JSON value it was decoded from.
    - Go errors are an inductive type with one constructor for each place
      where the client builds an error; [Error] renders the message.
    - The HTTP stack and the remote service are one oracle, [Transport]; the
      list of requests that were sent is threaded through every operation. *)

From Stdlib Require Import ZArith Ascii String List Bool Lia.
From stdpp Require Import base decidable option strings list gmap fin_maps pretty sorting.

Local Open Scope Z_scope.

(* ===================================================================== *)
(** ** Results and framework values *)

Inductive result (E A : Type) : Type :=
| Ok (a : A)
| Err (e : E).
Arguments Ok {E A} a.
Arguments Err {E A} e.

Definition result_bind {E A B} (r : result E A) (k : A -> result E B) : result E B :=
  match r with
  | Ok a => k a
  | Err e => Err e
  end.

Definition is_Ok {E A} (r : result E A) : bool :=
  match r with Ok _ => true | Err _ => false end.

Declare Scope result_scope.
Delimit Scope result_scope with result.
Notation "x <-? r ; k" := (result_bind r (fun x => k))
  (at level 100, r at next level, right associativity) : result_scope.

(** A framework attribute value: [types.StringNull()], [types.StringUnknown()],
    [types.StringValue(s)] and their siblings. *)
Inductive tfvalue (A : Type) : Type :=
| Null
| Unknown
| Known (a : A).
Arguments Null {A}.
Arguments Unknown {A}.
Arguments Known {A} a.

Global Instance tfvalue_eq_dec {A} `{EqDecision A} : EqDecision (tfvalue A).
Proof. solve_decision. Defined.

Definition IsNull {A} (v : tfvalue A) : bool :=
  match v with Null => true | _ => false end.

Definition IsUnknown {A} (v : tfvalue A) : bool :=
  match v with Unknown => true | _ => false end.

(** [ValueString], [ValueBool], [ValueInt64]: the zero value when the
    attribute is null or unknown. *)
Definition value_or {A} (zero : A) (v : tfvalue A) : A :=
  match v with Known a => a | _ => zero end.

Abbreviation tfString := (tfvalue string).
Abbreviation tfBool := (tfvalue bool).
Abbreviation tfInt64 := (tfvalue Z).
Abbreviation tfMap := (tfvalue (gmap string (tfvalue string))).
Abbreviation tfList := (tfvalue (list (tfvalue string))).

Definition ValueString (v : tfString) : string := value_or "" v.
Definition ValueBool (v : tfBool) : bool := value_or false v.
Definition ValueInt64 (v : tfInt64) : Z := value_or 0 v.

(** [ValueBoolPointer]: nil when null, otherwise a pointer to the value. *)
Definition ValueBoolPointer (v : tfBool) : option bool :=
  match v with Null => None | _ => Some (ValueBool v) end.

(** [Elements] of a map: no elements when null or unknown. *)
Definition Elements (m : tfMap) : gmap string (tfvalue string) := value_or ∅ m.

(** [Equal] of the framework compares the state (null, unknown, known) and,
    when known, the elements; the element type is fixed by the schema. *)
Definition Equal {A} `{EqDecision A} (a b : tfvalue A) : bool := bool_decide (a = b).

(* ===================================================================== *)
(** ** JSON values and the part of [encoding/json] the provider relies on *)

Module Json.

#[local] Set Warnings "-register-all".

Inductive json : Type :=
| JNull
| JBool (b : bool)
| JNum (lit : string)   (* the number literal as written; no float is computed *)
| JStr (s : string)
| JArr (elems : list json)
| JObj (members : list (string * json)).

Definition dquote : ascii := "034"%char.

Definition is_ws (c : ascii) : bool :=
  (Ascii.eqb c " " || Ascii.eqb c "009" || Ascii.eqb c "010" || Ascii.eqb c "013")%bool.

Fixpoint skip_ws (s : string) : string :=
  match s with
  | String c r => if is_ws c then skip_ws r else s
  | EmptyString => s
  end.

Definition is_digit (c : ascii) : bool :=
  let n := nat_of_ascii c in (Nat.leb 48 n && Nat.leb n 57)%bool.

Fixpoint span (p : ascii -> bool) (s : string) : string * string :=
  match s with
  | String c r =>
      if p c then let '(a, b) := span p r in (String c a, b) else (EmptyString, s)
  | EmptyString => (EmptyString, EmptyString)
  end.

Definition hex_val (c : ascii) : option N :=
  let n := N_of_ascii c in
  if (N.leb 48 n && N.leb n 57)%bool then Some (n - 48)%N
  else if (N.leb 97 n && N.leb n 102)%bool then Some (n - 87)%N
  else if (N.leb 65 n && N.leb n 70)%bool then Some (n - 55)%N
  else None.

Definition hex4 (a b c d : ascii) : option N :=
  match hex_val a, hex_val b, hex_val c, hex_val d with
  | Some x, Some y, Some z, Some w => Some (((x * 16 + y) * 16 + z) * 16 + w)%N
  | _, _, _, _ => None
  end.

Definition byte (n : N) : ascii := ascii_of_N n.

(** UTF-8 encoding of a code point, as [encoding/json] writes a [\u] escape
    into the decoded string. *)
Definition utf8 (n : N) : string :=
  if (n <? 128)%N then String (byte n) EmptyString
  else if (n <? 2048)%N then
    String (byte (192 + n / 64)) (String (byte (128 + n mod 64)) EmptyString)
  else if (n <? 65536)%N then
    String (byte (224 + n / 4096))
      (String (byte (128 + (n / 64) mod 64)) (String (byte (128 + n mod 64)) EmptyString))
  else
    String (byte (240 + n / 262144))
      (String (byte (128 + (n / 4096) mod 64))
         (String (byte (128 + (n / 64) mod 64)) (String (byte (128 + n mod 64)) EmptyString))).

Definition is_high_surrogate (n : N) : bool := (N.leb 55296 n && N.ltb n 56320)%bool.
Definition is_low_surrogate (n : N) : bool := (N.leb 56320 n && N.ltb n 57344)%bool.
Definition replacement_char : N := 65533%N.

(** The body of a string literal, after the opening quote: the decoded
    string and the input after the closing quote. *)
Fixpoint parse_string_body (s : string) : option (string * string) :=
  match s with
  | EmptyString => None
  | String c r =>
      if Ascii.eqb c dquote then Some (EmptyString, r)
      else if Ascii.eqb c "\" then
        match r with
        | String e r' =>
            let lit (x : string) :=
              match parse_string_body r' with
              | Some (str, rest) => Some (x +:+ str, rest)
              | None => None
              end in
            if Ascii.eqb e dquote then lit (String dquote EmptyString)
            else if Ascii.eqb e "\" then lit "\"
            else if Ascii.eqb e "/" then lit "/"
            else if Ascii.eqb e "b" then lit (String "008" EmptyString)
            else if Ascii.eqb e "f" then lit (String "012" EmptyString)
            else if Ascii.eqb e "n" then lit (String "010" EmptyString)
            else if Ascii.eqb e "r" then lit (String "013" EmptyString)
            else if Ascii.eqb e "t" then lit (String "009" EmptyString)
            else if Ascii.eqb e "u" then
              match r' with
              | String h1 (String h2 (String h3 (String h4 r2))) =>
                  match hex4 h1 h2 h3 h4 with
                  | None => None
                  | Some n =>
                      let plain (m : N) (tl : string) :=
                        match parse_string_body tl with
                        | Some (str, rest) => Some (utf8 m +:+ str, rest)
                        | None => None
                        end in
                      if is_high_surrogate n then
                        match r2 with
                        | String b (String u (String l1 (String l2 (String l3 (String l4 r3))))) =>
                            match hex4 l1 l2 l3 l4 with
                            | Some m =>
                                if (Ascii.eqb b "\" && Ascii.eqb u "u" && is_low_surrogate m)%bool
                                then plain (65536 + (n - 55296) * 1024 + (m - 56320))%N r3
                                else plain replacement_char r2
                            | None => plain replacement_char r2
                            end
                        | _ => plain replacement_char r2
                        end
                      else if is_low_surrogate n then plain replacement_char r2
                      else plain n r2
                  end
              | _ => None
              end
            else None
        | EmptyString => None
        end
      else if Nat.ltb (nat_of_ascii c) 32 then None
      else
        match parse_string_body r with
        | Some (str, rest) => Some (String c str, rest)
        | None => None
        end
  end.

(** A number literal: an optional minus sign, an integer part without
    leading zero, an optional fraction and an optional exponent. *)
Definition parse_number (s : string) : option (string * string) :=
  let '(sign, s1) :=
    match s with
    | String "-" r => ("-", r)
    | _ => (EmptyString, s)
    end in
  let int_part :=
    match s1 with
    | String "0" r => Some ("0", r)
    | _ => let '(ds, r) := span is_digit s1 in
           if String.eqb ds EmptyString then None else Some (ds, r)
    end in
  match int_part with
  | None => None
  | Some (ip, s2) =>
      let frac :=
        match s2 with
        | String "." r =>
            let '(ds, r') := span is_digit r in
            if String.eqb ds EmptyString then None else Some ("." +:+ ds, r')
        | _ => Some (EmptyString, s2)
        end in
      match frac with
      | None => None
      | Some (fp, s3) =>
          let exp (e : string) (r : string) :=
            let '(sg, r1) :=
              match r with
              | String "+" t => ("+", t)
              | String "-" t => ("-", t)
              | _ => (EmptyString, r)
              end in
            let '(ds, r2) := span is_digit r1 in
            if String.eqb ds EmptyString then None
            else Some (sign +:+ ip +:+ fp +:+ e +:+ sg +:+ ds, r2) in
          match s3 with
          | String "e" r => exp "e" r
          | String "E" r => exp "E" r
          | _ => Some (sign +:+ ip +:+ fp, s3)
          end
      end
  end.

Definition strip_prefix (p s : string) : option string :=
  if String.prefix p s then Some (String.substring (String.length p) (String.length s - String.length p) s)
  else None.

Fixpoint parse_value (fuel : nat) (s : string) : option (json * string) :=
  match fuel with
  | O => None
  | S fuel' =>
      match skip_ws s with
      | EmptyString => None
      | String c r =>
          if Ascii.eqb c "{" then
            match skip_ws r with
            | String "}" r' => Some (JObj [], r')
            | r' =>
                match parse_members fuel' r' with
                | Some (kvs, rest) => Some (JObj kvs, rest)
                | None => None
                end
            end
          else if Ascii.eqb c "[" then
            match skip_ws r with
            | String "]" r' => Some (JArr [], r')
            | r' =>
                match parse_elements fuel' r' with
                | Some (vs, rest) => Some (JArr vs, rest)
                | None => None
                end
            end
          else if Ascii.eqb c dquote then
            match parse_string_body r with
            | Some (str, rest) => Some (JStr str, rest)
            | None => None
            end
          else if Ascii.eqb c "t" then
            match strip_prefix "rue" r with Some rest => Some (JBool true, rest) | None => None end
          else if Ascii.eqb c "f" then
            match strip_prefix "alse" r with Some rest => Some (JBool false, rest) | None => None end
          else if Ascii.eqb c "n" then
            match strip_prefix "ull" r with Some rest => Some (JNull, rest) | None => None end
          else
            match parse_number (String c r) with
            | Some (lit, rest) => Some (JNum lit, rest)
            | None => None
            end
      end
  end
with parse_elements (fuel : nat) (s : string) : option (list json * string) :=
  match fuel with
  | O => None
  | S fuel' =>
      match parse_value fuel' s with
      | Some (v, r) =>
          match skip_ws r with
          | String "," r' =>
              match parse_elements fuel' r' with
              | Some (vs, rest) => Some (v :: vs, rest)
              | None => None
              end
          | String "]" r' => Some ([v], r')
          | _ => None
          end
      | None => None
      end
  end
with parse_members (fuel : nat) (s : string) : option (list (string * json) * string) :=
  match fuel with
  | O => None
  | S fuel' =>
      match skip_ws s with
      | String q r =>
          if Ascii.eqb q dquote then
            match parse_string_body r with
            | Some (key, r1) =>
                match skip_ws r1 with
                | String ":" r2 =>
                    match parse_value fuel' r2 with
                    | Some (v, r3) =>
                        match skip_ws r3 with
                        | String "," r4 =>
                            match parse_members fuel' r4 with
                            | Some (kvs, rest) => Some ((key, v) :: kvs, rest)
                            | None => None
                            end
                        | String "}" r4 => Some ([(key, v)], r4)
                        | _ => None
                        end
                    | None => None
                    end
                | _ => None
                end
            | None => None
            end
          else None
      | EmptyString => None
      end
  end.

(** A whole document: one value, then only white space. *)
Definition parse (s : string) : option json :=
  match parse_value (2 * String.length s + 2) s with
  | Some (v, rest) =>
      match skip_ws rest with
      | EmptyString => Some v
      | _ => None
      end
  | None => None
  end.

(** *** Decoding into Go values

    [json.Unmarshal] first checks the syntax of the whole input and then
    stores the value.  A JSON value of the wrong kind for its target is a
    type error; the texts of the library's messages are not modelled, only
    the two kinds of failure.  Every target the client decodes into is a
    freshly declared variable. *)

Definition syntax_error : string := "invalid character in JSON input".
Definition type_error : string := "json: cannot unmarshal value into Go value".

(** A decoder stores a JSON value into the current value of its target. *)
Definition Decoder (A : Type) : Type := json -> A -> result string A.

Class Unmarshal (T : Type) := unmarshal : Decoder T.

Definition Unmarshal_bytes {T} `{Unmarshal T} (data : string) (v : T) : result string T :=
  match parse data with
  | None => Err syntax_error
  | Some j => unmarshal j v
  end.

Definition lower (c : ascii) : ascii :=
  let n := nat_of_ascii c in
  if (Nat.leb 65 n && Nat.leb n 90)%bool then ascii_of_nat (n + 32) else c.

Fixpoint to_lower (s : string) : string :=
  match s with
  | String c r => String (lower c) (to_lower r)
  | EmptyString => EmptyString
  end.

(** A member is stored into the struct field whose [json] tag equals its
    key, or else equals it up to case (the tags of one struct differ from
    each other also up to case). *)
Definition field_matches (tag key : string) : bool :=
  (String.eqb tag key || String.eqb (to_lower tag) (to_lower key))%bool.

(** All the members of an object that go to the field [tag], in order. *)
Fixpoint decode_field {A} (d : Decoder A) (tag : string)
    (members : list (string * json)) (cur : A) : result string A :=
  match members with
  | [] => Ok cur
  | (k, j) :: rest =>
      if field_matches tag k then
        match d j cur with
        | Ok x => decode_field d tag rest x
        | Err e => Err e
        end
      else decode_field d tag rest cur
  end.

Definition dec_string : Decoder string := fun j cur =>
  match j with
  | JStr s => Ok s
  | JNull => Ok cur
  | _ => Err type_error
  end.

Definition dec_bool : Decoder bool := fun j cur =>
  match j with
  | JBool b => Ok b
  | JNull => Ok cur
  | _ => Err type_error
  end.

Fixpoint digits_value (s : string) (acc : Z) : option Z :=
  match s with
  | EmptyString => Some acc
  | String c r =>
      if is_digit c then digits_value r (10 * acc + Z.of_nat (nat_of_ascii c - 48)) else None
  end.

(** [strconv.ParseInt(lit, 10, 64)] on a JSON number literal. *)
Definition int_of_literal (lit : string) : option Z :=
  let v :=
    match lit with
    | String "-" r => option_map Z.opp (digits_value r 0)
    | _ => digits_value lit 0
    end in
  match v with
  | Some z => if ((- 2 ^ 63 <=? z) && (z <? 2 ^ 63))%bool then Some z else None
  | None => None
  end.

Definition dec_int : Decoder Z := fun j cur =>
  match j with
  | JNum lit => match int_of_literal lit with Some z => Ok z | None => Err type_error end
  | JNull => Ok cur
  | _ => Err type_error
  end.

(** A pointer field: [null] stores nil. *)
Definition dec_ptr {A} (zero : A) (d : Decoder A) : Decoder (option A) := fun j cur =>
  match j with
  | JNull => Ok None
  | _ => match d j (default zero cur) with Ok a => Ok (Some a) | Err e => Err e end
  end.

Fixpoint decode_elems {A} (zero : A) (d : Decoder A) (l : list json) : result string (list A) :=
  match l with
  | [] => Ok []
  | x :: r =>
      match d x zero with
      | Ok a =>
          match decode_elems zero d r with
          | Ok t => Ok (a :: t)
          | Err e => Err e
          end
      | Err e => Err e
      end
  end.

(** A slice: [None] is the nil slice. *)
Definition dec_slice {A} (zero : A) (d : Decoder A) : Decoder (option (list A)) := fun j _ =>
  match j with
  | JNull => Ok None
  | JArr js =>
      match decode_elems zero d js with
      | Ok l => Ok (Some l)
      | Err e => Err e
      end
  | _ => Err type_error
  end.

Fixpoint decode_entries {A} (zero : A) (d : Decoder A) (members : list (string * json))
    (m : gmap string A) : result string (gmap string A) :=
  match members with
  | [] => Ok m
  | (k, j) :: rest =>
      match d j zero with
      | Ok a => decode_entries zero d rest (<[k := a]> m)
      | Err e => Err e
      end
  end.

(** A map with string keys: [None] is the nil map; an object adds its
    members to the entries already there. *)
Definition dec_map {A} (zero : A) (d : Decoder A) : Decoder (option (gmap string A)) := fun j cur =>
  match j with
  | JNull => Ok None
  | JObj members =>
      match decode_entries zero d members (default ∅ cur) with
      | Ok m => Ok (Some m)
      | Err e => Err e
      end
  | _ => Err type_error
  end.

(** [map[string]interface{}] and [interface{}]: any value is accepted and
    kept as it is. *)
Definition dec_any : Decoder json := fun j _ => Ok j.

(** [json.RawMessage]: the text of the value, [null] included, is kept for
    later; here the value that text denotes. *)
Definition dec_raw : Decoder (option json) := fun j _ => Ok (Some j).

(** A struct: [null] leaves it as it is, an object stores its members. *)
Definition dec_struct {T} (fields : list (string * json) -> T -> result string T) : Decoder T :=
  fun j cur =>
    match j with
    | JNull => Ok cur
    | JObj members => fields members cur
    | _ => Err type_error
    end.

Global Instance map_Unmarshal : Unmarshal (option (gmap string json)) :=
  dec_map JNull dec_any.

(** *** Encoding Go values *)

Definition enc_map (m : option (gmap string json)) : json :=
  match m with
  | None => JNull
  | Some m => JObj (map_to_list m)
  end.

Definition enc_strings (l : option (list string)) : json :=
  match l with
  | None => JNull
  | Some l => JArr (JStr <$> l)
  end.

Definition enc_int (z : Z) : json := JNum (pretty z).

(** A field tagged [omitempty] whose Go value is a pointer is left out when
    the pointer is nil and written otherwise. *)
Definition omitempty_ptr {A} (tag : string) (enc : A -> json) (p : option A)
  : list (string * json) :=
  match p with
  | None => []
  | Some a => [(tag, enc a)]
  end.

Definition has_member (tag : string) (j : json) : bool :=
  match j with
  | JObj members => existsb (String.eqb tag) (map fst members)
  | _ => false
  end.

Definition member (tag : string) (j : json) : option json :=
  match j with
  | JObj members => snd <$> List.find (fun kv => String.eqb (fst kv) tag) members
  | _ => None
  end.

End Json.
Export Json.

(* ===================================================================== *)
(** ** Diagnostics of the plugin framework *)

Module diag.

Inductive Severity : Type := SeverityError | SeverityWarning.

Record Diagnostic : Type := {
  Severity_ : Severity;
  Summary : string;
  Detail : string;
  Path : option string   (* the attribute the diagnostic is attached to *)
}.

Global Instance Severity_eq_dec : EqDecision Severity.
Proof. solve_decision. Defined.

Global Instance Diagnostic_eq_dec : EqDecision Diagnostic.
Proof. solve_decision. Defined.

Abbreviation Diagnostics := (list Diagnostic).

Definition NewErrorDiagnostic (summary detail : string) : Diagnostic :=
  {| Severity_ := SeverityError; Summary := summary; Detail := detail; Path := None |}.

Definition NewWarningDiagnostic (summary detail : string) : Diagnostic :=
  {| Severity_ := SeverityWarning; Summary := summary; Detail := detail; Path := None |}.

Definition NewAttributeErrorDiagnostic (path summary detail : string) : Diagnostic :=
  {| Severity_ := SeverityError; Summary := summary; Detail := detail; Path := Some path |}.

(** [Append] keeps a diagnostic only once. *)
Definition Append (d : Diagnostic) (ds : Diagnostics) : Diagnostics :=
  if bool_decide (d ∈ ds) then ds else ds ++ [d].

Definition AddError (summary detail : string) (ds : Diagnostics) : Diagnostics :=
  Append (NewErrorDiagnostic summary detail) ds.

Definition AddWarning (summary detail : string) (ds : Diagnostics) : Diagnostics :=
  Append (NewWarningDiagnostic summary detail) ds.

Definition AddAttributeError (path summary detail : string) (ds : Diagnostics) : Diagnostics :=
  Append (NewAttributeErrorDiagnostic path summary detail) ds.

Definition is_error (d : Diagnostic) : bool :=
  match Severity_ d with SeverityError => true | SeverityWarning => false end.

Definition HasError (ds : Diagnostics) : bool := existsb is_error ds.

End diag.

(** [List.ElementsAs(ctx, &[]string, false)]: a null list is the nil slice; an
    unknown list, or a null or unknown element, is a conversion error. *)
Definition conversion_error : diag.Diagnostic :=
  diag.NewErrorDiagnostic "Value Conversion Error"
    "An unexpected error was encountered trying to convert the value.".

Definition ElementsAs (l : tfList) : result diag.Diagnostic (option (list string)) :=
  match l with
  | Null => Ok None
  | Unknown => Err conversion_error
  | Known vs =>
      match mapM (fun v => match v with Known s => Some s | _ => None end) vs with
      | Some ss => Ok (Some ss)
      | None => Err conversion_error
      end
  end.

(** What an operation hands back to the framework: its diagnostics and the
    state (or plan value, or provider data) of the response. *)
Record Response (S : Type) : Type := {
  Diagnostics : diag.Diagnostics;
  State : S
}.
Arguments Diagnostics {S} r.
Arguments State {S} r.

(** Operations with an effect on the outside thread the list of the calls
    they made. *)
Definition Traced (E A : Type) : Type := list E -> A * list E.

Global Instance Traced_ret {E} : MRet (Traced E) := fun A a log => (a, log).
Global Instance Traced_bind {E} : MBind (Traced E) := fun A B k m log =>
  let '(a, log') := m log in k a log'.

(** The calls an operation makes when it starts with none made. *)
Definition calls {E A} (m : Traced E A) : list E := snd (m []).
Definition outcome {E A} (m : Traced E A) : A := fst (m []).

(* ===================================================================== *)
(** ** [internal/client] *)

Module client.

(** *** The HTTP exchange *)

Record Request : Type := {
  Method : string;
  URL : string;
  Header : list (string * string);
  Body : option json
}.

(** What [http.NewRequest], [HTTPClient.Do] and [io.ReadAll] give for a
    request: the HTTP library and the remote service taken together. *)
Inductive Outcome : Type :=
| RequestRejected (err : string)            (* http.NewRequest failed; nothing is sent *)
| TransportFailed (err : string)            (* HTTPClient.Do failed *)
| BodyUnreadable (status : Z) (err : string)  (* io.ReadAll failed *)
| Replied (status : Z) (body : string).

Abbreviation Transport := (Request -> Outcome).

(** Operations thread the list of the requests handed to the transport. *)
Abbreviation Net := (Traced Request).

Definition send (t : Transport) (req : Request) : Net Outcome := fun log =>
  match t req with
  | RequestRejected e => (RequestRejected e, log)
  | o => (o, log ++ [req])
  end.

(** *** client.go *)

Record Client : Type := {
  BaseURL : string;
  APIKey : string;
  HTTPClient : Transport
}.

Module APIResponse.
Record t : Type := {
  Data : option json;
  Error : option string;
  Meta : option (gmap string string)
}.
Definition zero : t := {| Data := None; Error := None; Meta := None |}.
End APIResponse.

Global Instance APIResponse_Unmarshal : Unmarshal APIResponse.t :=
  dec_struct (fun members cur =>
    data <-? decode_field dec_raw "data" members (APIResponse.Data cur);
    err <-? decode_field (dec_ptr "" dec_string) "error" members (APIResponse.Error cur);
    meta <-? decode_field (dec_map "" dec_string) "meta" members (APIResponse.Meta cur);
    Ok {| APIResponse.Data := data; APIResponse.Error := err; APIResponse.Meta := meta |})%result.

(** The errors the client builds, one constructor for each [fmt.Errorf]. *)
Inductive error : Type :=
| BaseURLRequired
| CreateRequestFailed (cause : string)
| ExecuteRequestFailed (cause : string)
| ReadBodyFailed (cause : string)
| APIError (status : Z) (message : string)
| UnmarshalResponseFailed (cause : string)
| EnvelopeError (message : string)
| UnmarshalDataFailed (cause : string)
| UnmarshalSignupFailed (cause : string)
| NotFoundByName (kind name : string).

(** The format string of the [fmt.Errorf] call that built the error. *)
Definition Format (e : error) : string :=
  match e with
  | BaseURLRequired => "base URL is required"
  | CreateRequestFailed _ => "failed to create request: %w"
  | ExecuteRequestFailed _ => "failed to execute request: %w"
  | ReadBodyFailed _ => "failed to read response body: %w"
  | APIError _ _ => "API error (%d): %s"
  | UnmarshalResponseFailed _ => "failed to unmarshal API response: %w"
  | EnvelopeError _ => "API error: %s"
  | UnmarshalDataFailed _ => "failed to unmarshal response data: %w"
  | UnmarshalSignupFailed _ => "failed to unmarshal response: %w"
  | NotFoundByName kind _ => kind +:+ " not found: %s"
  end.

(** [err.Error()]. *)
Definition Error (e : error) : string :=
  match e with
  | BaseURLRequired => "base URL is required"
  | CreateRequestFailed c => "failed to create request: " +:+ c
  | ExecuteRequestFailed c => "failed to execute request: " +:+ c
  | ReadBodyFailed c => "failed to read response body: " +:+ c
  | APIError status msg => "API error (" +:+ pretty status +:+ "): " +:+ msg
  | UnmarshalResponseFailed c => "failed to unmarshal API response: " +:+ c
  | EnvelopeError msg => "API error: " +:+ msg
  | UnmarshalDataFailed c => "failed to unmarshal response data: " +:+ c
  | UnmarshalSignupFailed c => "failed to unmarshal response: " +:+ c
  | NotFoundByName kind name => kind +:+ " not found: " +:+ name
  end.

Definition New (baseURL apiKey : string) (httpClient : Transport) : result error Client :=
  if String.eqb baseURL "" then Err BaseURLRequired
  else Ok {| BaseURL := baseURL; APIKey := apiKey; HTTPClient := httpClient |}.

Definition is_space (c : ascii) : bool :=
  let n := nat_of_ascii c in
  ((Nat.leb 9 n && Nat.leb n 13) || Nat.eqb n 32)%bool.

Fixpoint trim_left (s : string) : string :=
  match s with
  | String c r => if is_space c then trim_left r else s
  | EmptyString => s
  end.

Fixpoint trim_right (s : string) : string :=
  match s with
  | String c r =>
      match trim_right r with
      | EmptyString => if is_space c then EmptyString else String c EmptyString
      | r' => String c r'
      end
  | EmptyString => s
  end.

(** [strings.TrimSpace], on ASCII white space. *)
Definition TrimSpace (s : string) : string := trim_right (trim_left s).

Definition authorization (apiKey : string) : list (string * string) :=
  let apiKey := TrimSpace apiKey in
  if String.eqb apiKey "" then []
  else if negb (String.prefix "Bearer " apiKey) then [("Authorization", "Bearer " +:+ apiKey)]
  else [("Authorization", apiKey)].

(** The request [DoRequest] builds: URL, authorization and fixed headers. *)
Definition build_request (c : Client) (method path : string) (body : option json) : Request :=
  {| Method := method;
     URL := BaseURL c +:+ path;
     Header := authorization (APIKey c) ++
               [("Content-Type", "application/json");
                ("User-Agent", "terraform-provider-quismon/1.0")];
     Body := body |}.

(** [DoRequest]: the body is given already encoded; encoding the request
    types of this package cannot fail. *)
Definition DoRequest (c : Client) (method path : string) (body : option json)
  : Net (result error string) :=
  o ← send (HTTPClient c) (build_request c method path body);
  mret match o with
       | RequestRejected e => Err (CreateRequestFailed e)
       | TransportFailed e => Err (ExecuteRequestFailed e)
       | BodyUnreadable _ e => Err (ReadBodyFailed e)
       | Replied status bodyBytes =>
           if 400 <=? status then
             match Unmarshal_bytes bodyBytes APIResponse.zero with
             | Ok {| APIResponse.Error := Some msg |} => Err (APIError status msg)
             | _ => Err (APIError status bodyBytes)
             end
           else Ok bodyBytes
       end.

(** [UnmarshalAPIResponse]: [v] is the value the caller's variable holds;
    the result is the value it holds afterwards. *)
Definition UnmarshalAPIResponse {T} `{Unmarshal T} (data : string) (v : T) : result error T :=
  match Unmarshal_bytes data APIResponse.zero with
  | Err e => Err (UnmarshalResponseFailed e)
  | Ok apiResp =>
      match APIResponse.Error apiResp with
      | Some msg => Err (EnvelopeError msg)
      | None =>
          match APIResponse.Data apiResp with
          | Some raw =>
              match unmarshal raw v with
              | Ok v' => Ok v'
              | Err e => Err (UnmarshalDataFailed e)
              end
          | None => Ok v
          end
      end
  end.

(** *** checks.go *)

Module Check.
Record t : Type := {
  ID : string;
  OrgID : string;
  Name : string;
  Type_ : string;
  Config : option (gmap string json);
  ConfigHash : string;
  IntervalSeconds : Z;
  Regions : option (list string);
  Enabled : bool;
  Inverted : bool;
  SimultaneousRegions : bool;
  RecheckOnFailure : bool;
  ExpiresAfterSeconds : option Z;
  HealthStatus : string;
  LastChecked : option string;
  CreatedAt : string;
  UpdatedAt : string
}.
Definition zero : t :=
  {| ID := ""; OrgID := ""; Name := ""; Type_ := ""; Config := None; ConfigHash := "";
     IntervalSeconds := 0; Regions := None; Enabled := false; Inverted := false;
     SimultaneousRegions := false; RecheckOnFailure := false; ExpiresAfterSeconds := None;
     HealthStatus := ""; LastChecked := None; CreatedAt := ""; UpdatedAt := "" |}.
End Check.

Global Instance Check_Unmarshal : Unmarshal Check.t :=
  dec_struct (fun ms cur =>
    id <-? decode_field dec_string "id" ms (Check.ID cur);
    org <-? decode_field dec_string "org_id" ms (Check.OrgID cur);
    name <-? decode_field dec_string "name" ms (Check.Name cur);
    ty <-? decode_field dec_string "type" ms (Check.Type_ cur);
    cfg <-? decode_field (dec_map JNull dec_any) "config" ms (Check.Config cur);
    hash <-? decode_field dec_string "config_hash" ms (Check.ConfigHash cur);
    itv <-? decode_field dec_int "interval_seconds" ms (Check.IntervalSeconds cur);
    regions <-? decode_field (dec_slice "" dec_string) "regions" ms (Check.Regions cur);
    enabled <-? decode_field dec_bool "enabled" ms (Check.Enabled cur);
    inverted <-? decode_field dec_bool "inverted" ms (Check.Inverted cur);
    simul <-? decode_field dec_bool "simultaneous_regions" ms (Check.SimultaneousRegions cur);
    recheck <-? decode_field dec_bool "recheck_on_failure" ms (Check.RecheckOnFailure cur);
    expires <-? decode_field (dec_ptr 0 dec_int) "expires_after_seconds" ms
                  (Check.ExpiresAfterSeconds cur);
    health <-? decode_field dec_string "health_status" ms (Check.HealthStatus cur);
    last <-? decode_field (dec_ptr "" dec_string) "last_checked" ms (Check.LastChecked cur);
    created <-? decode_field dec_string "created_at" ms (Check.CreatedAt cur);
    updated <-? decode_field dec_string "updated_at" ms (Check.UpdatedAt cur);
    Ok {| Check.ID := id; Check.OrgID := org; Check.Name := name; Check.Type_ := ty;
          Check.Config := cfg; Check.ConfigHash := hash; Check.IntervalSeconds := itv;
          Check.Regions := regions; Check.Enabled := enabled; Check.Inverted := inverted;
          Check.SimultaneousRegions := simul; Check.RecheckOnFailure := recheck;
          Check.ExpiresAfterSeconds := expires; Check.HealthStatus := health;
          Check.LastChecked := last; Check.CreatedAt := created;
          Check.UpdatedAt := updated |})%result.

Module CreateCheckRequest.
Record t : Type := {
  Name : string;
  Type_ : string;
  Config : option (gmap string json);
  IntervalSeconds : Z;
  Regions : option (list string);
  Enabled : bool;
  Inverted : option bool;
  SimultaneousRegions : option bool;
  RecheckOnFailure : option bool;
  ExpiresAfterSeconds : option Z
}.

(** [json.Marshal]: [regions] is left out when the slice is empty, the
    pointer fields when they are nil. *)
Definition marshal (r : t) : json :=
  JObj ([("name", JStr (Name r)); ("type", JStr (Type_ r)); ("config", enc_map (Config r));
         ("interval_seconds", enc_int (IntervalSeconds r))]
        ++ match Regions r with
           | None | Some [] => []
           | Some l => [("regions", JArr (JStr <$> l))]
           end
        ++ [("enabled", JBool (Enabled r))]
        ++ omitempty_ptr "inverted" JBool (Inverted r)
        ++ omitempty_ptr "simultaneous_regions" JBool (SimultaneousRegions r)
        ++ omitempty_ptr "recheck_on_failure" JBool (RecheckOnFailure r)
        ++ omitempty_ptr "expires_after_seconds" enc_int (ExpiresAfterSeconds r)).
End CreateCheckRequest.

Module UpdateCheckRequest.
Record t : Type := {
  Name : option string;
  Type_ : option string;
  Config : option (option (gmap string json));
  IntervalSeconds : option Z;
  Regions : option (option (list string));
  Enabled : option bool;
  Inverted : option bool;
  SimultaneousRegions : option bool;
  RecheckOnFailure : option bool;
  ExpiresAfterSeconds : option Z
}.

Definition marshal (r : t) : json :=
  JObj (omitempty_ptr "name" JStr (Name r)
        ++ omitempty_ptr "type" JStr (Type_ r)
        ++ omitempty_ptr "config" enc_map (Config r)
        ++ omitempty_ptr "interval_seconds" enc_int (IntervalSeconds r)
        ++ omitempty_ptr "regions" enc_strings (Regions r)
        ++ omitempty_ptr "enabled" JBool (Enabled r)
        ++ omitempty_ptr "inverted" JBool (Inverted r)
        ++ omitempty_ptr "simultaneous_regions" JBool (SimultaneousRegions r)
        ++ omitempty_ptr "recheck_on_failure" JBool (RecheckOnFailure r)
        ++ omitempty_ptr "expires_after_seconds" enc_int (ExpiresAfterSeconds r)).
End UpdateCheckRequest.

Definition decoded {T} `{Unmarshal T} (zero : T) (r : result error string) : result error T :=
  match r with
  | Err e => Err e
  | Ok data => UnmarshalAPIResponse data zero
  end.

Definition GetCheck (c : Client) (id : string) : Net (result error Check.t) :=
  r ← DoRequest c "GET" ("/v1/checks/" +:+ id) None;
  mret (decoded Check.zero r).

Definition CreateCheck (c : Client) (req : CreateCheckRequest.t) : Net (result error Check.t) :=
  r ← DoRequest c "POST" "/v1/checks" (Some (CreateCheckRequest.marshal req));
  mret (decoded Check.zero r).

Definition UpdateCheck (c : Client) (id : string) (req : UpdateCheckRequest.t)
  : Net (result error Check.t) :=
  r ← DoRequest c "PUT" ("/v1/checks/" +:+ id) (Some (UpdateCheckRequest.marshal req));
  mret (decoded Check.zero r).

(** *** notification_channels.go *)

Module NotificationChannel.
Record t : Type := {
  ID : string;
  OrgID : string;
  Name : string;
  Type_ : string;
  Config : option (gmap string json);
  Enabled : bool;
  CreatedAt : string;
  UpdatedAt : string
}.
Definition zero : t :=
  {| ID := ""; OrgID := ""; Name := ""; Type_ := ""; Config := None; Enabled := false;
     CreatedAt := ""; UpdatedAt := "" |}.
End NotificationChannel.

Global Instance NotificationChannel_Unmarshal : Unmarshal NotificationChannel.t :=
  dec_struct (fun ms cur =>
    id <-? decode_field dec_string "id" ms (NotificationChannel.ID cur);
    org <-? decode_field dec_string "org_id" ms (NotificationChannel.OrgID cur);
    name <-? decode_field dec_string "name" ms (NotificationChannel.Name cur);
    ty <-? decode_field dec_string "type" ms (NotificationChannel.Type_ cur);
    cfg <-? decode_field (dec_map JNull dec_any) "config" ms (NotificationChannel.Config cur);
    enabled <-? decode_field dec_bool "enabled" ms (NotificationChannel.Enabled cur);
    created <-? decode_field dec_string "created_at" ms (NotificationChannel.CreatedAt cur);
    updated <-? decode_field dec_string "updated_at" ms (NotificationChannel.UpdatedAt cur);
    Ok {| NotificationChannel.ID := id; NotificationChannel.OrgID := org;
          NotificationChannel.Name := name; NotificationChannel.Type_ := ty;
          NotificationChannel.Config := cfg; NotificationChannel.Enabled := enabled;
          NotificationChannel.CreatedAt := created;
          NotificationChannel.UpdatedAt := updated |})%result.

Definition GetNotificationChannel (c : Client) (id : string)
  : Net (result error NotificationChannel.t) :=
  r ← DoRequest c "GET" ("/v1/notification-channels/" +:+ id) None;
  mret (decoded NotificationChannel.zero r).

(** *** alert_rules.go *)

Module AlertRule.
Record t : Type := {
  ID : string;
  CheckID : string;
  Name : string;
  Condition : option (gmap string json);
  NotificationChannelIDs : option (list string);
  Enabled : bool;
  CreatedAt : string;
  UpdatedAt : string
}.
Definition zero : t :=
  {| ID := ""; CheckID := ""; Name := ""; Condition := None; NotificationChannelIDs := None;
     Enabled := false; CreatedAt := ""; UpdatedAt := "" |}.
End AlertRule.

Global Instance AlertRule_Unmarshal : Unmarshal AlertRule.t :=
  dec_struct (fun ms cur =>
    id <-? decode_field dec_string "id" ms (AlertRule.ID cur);
    check <-? decode_field dec_string "check_id" ms (AlertRule.CheckID cur);
    name <-? decode_field dec_string "name" ms (AlertRule.Name cur);
    cond <-? decode_field (dec_map JNull dec_any) "condition" ms (AlertRule.Condition cur);
    chans <-? decode_field (dec_slice "" dec_string) "notification_channel_ids" ms
                (AlertRule.NotificationChannelIDs cur);
    enabled <-? decode_field dec_bool "enabled" ms (AlertRule.Enabled cur);
    created <-? decode_field dec_string "created_at" ms (AlertRule.CreatedAt cur);
    updated <-? decode_field dec_string "updated_at" ms (AlertRule.UpdatedAt cur);
    Ok {| AlertRule.ID := id; AlertRule.CheckID := check; AlertRule.Name := name;
          AlertRule.Condition := cond; AlertRule.NotificationChannelIDs := chans;
          AlertRule.Enabled := enabled; AlertRule.CreatedAt := created;
          AlertRule.UpdatedAt := updated |})%result.

Module UpdateAlertRuleRequest.
Record t : Type := {
  Name : option string;
  Condition : option (option (gmap string json));
  NotificationChannelIDs : option (option (list string));
  Enabled : option bool
}.
Definition zero : t :=
  {| Name := None; Condition := None; NotificationChannelIDs := None; Enabled := None |}.

Definition marshal (r : t) : json :=
  JObj (omitempty_ptr "name" JStr (Name r)
        ++ omitempty_ptr "condition" enc_map (Condition r)
        ++ omitempty_ptr "notification_channel_ids" enc_strings (NotificationChannelIDs r)
        ++ omitempty_ptr "enabled" JBool (Enabled r)).
End UpdateAlertRuleRequest.

Definition UpdateAlertRule (c : Client) (checkID ruleID : string) (req : UpdateAlertRuleRequest.t)
  : Net (result error AlertRule.t) :=
  r ← DoRequest c "PUT" ("/v1/checks/" +:+ checkID +:+ "/alerts/" +:+ ruleID)
        (Some (UpdateAlertRuleRequest.marshal req));
  mret (decoded AlertRule.zero r).

(** *** signup.go *)

Module QuickSignupRequest.
Record t : Type := {
  Email : string;
  OrgName : string
}.

(** [org_name] is left out when it is empty. *)
Definition marshal (r : t) : json :=
  JObj ([("email", JStr (Email r))]
        ++ if String.eqb (OrgName r) "" then [] else [("org_name", JStr (OrgName r))]).
End QuickSignupRequest.

Module QuickSignupResponse.
Record t : Type := {
  OrgID : string;
  APIKey : string;
  Email : string;
  VerificationRequired : bool
}.
Definition zero : t :=
  {| OrgID := ""; APIKey := ""; Email := ""; VerificationRequired := false |}.
End QuickSignupResponse.

Global Instance QuickSignupResponse_Unmarshal : Unmarshal QuickSignupResponse.t :=
  dec_struct (fun ms cur =>
    org <-? decode_field dec_string "org_id" ms (QuickSignupResponse.OrgID cur);
    key <-? decode_field dec_string "api_key" ms (QuickSignupResponse.APIKey cur);
    email <-? decode_field dec_string "email" ms (QuickSignupResponse.Email cur);
    verif <-? decode_field dec_bool "verification_required" ms
                (QuickSignupResponse.VerificationRequired cur);
    Ok {| QuickSignupResponse.OrgID := org; QuickSignupResponse.APIKey := key;
          QuickSignupResponse.Email := email;
          QuickSignupResponse.VerificationRequired := verif |})%result.

(** [QuickSignup] makes its own HTTP client: [net] is the network of the
    process. *)
Definition QuickSignup (net : Transport) (baseURL : string) (req : QuickSignupRequest.t)
  : Net (result error QuickSignupResponse.t) :=
  if String.eqb baseURL "" then mret (Err BaseURLRequired)
  else
    let httpReq := {| Method := "POST";
                      URL := baseURL +:+ "/v1/auth/quick-signup";
                      Header := [("Content-Type", "application/json");
                                 ("User-Agent", "terraform-provider-quismon/1.0")];
                      Body := Some (QuickSignupRequest.marshal req) |} in
    o ← send net httpReq;
    mret match o with
         | RequestRejected e => Err (CreateRequestFailed e)
         | TransportFailed e => Err (ExecuteRequestFailed e)
         | BodyUnreadable _ e => Err (ReadBodyFailed e)
         | Replied status bodyBytes =>
             if 400 <=? status then
               match Unmarshal_bytes bodyBytes APIResponse.zero with
               | Ok {| APIResponse.Error := Some msg |} => Err (APIError status msg)
               | _ => Err (APIError status bodyBytes)
               end
             else
               match UnmarshalAPIResponse bodyBytes QuickSignupResponse.zero with
               | Ok signupResp => Ok signupResp
               | Err e => Err (UnmarshalSignupFailed (Error e))
               end
         end.

(** *** checks.go, the remaining calls *)

(** The target of a list call: a slice of structs, nil until decoded. *)
Definition dec_Checks : Decoder (option (list Check.t)) := dec_slice Check.zero unmarshal.

Definition ListChecks (c : Client) : Net (result error (option (list Check.t))) :=
r ← DoRequest c "GET" "/v1/checks" None;
mret (@decoded _ dec_Checks None r).

(** [DeleteCheck] returns the error of [DoRequest] and never looks at the
    body of the reply. *)
Definition DeleteCheck (c : Client) (id : string) : Net (option error) :=
r ← DoRequest c "DELETE" ("/v1/checks/" +:+ id) None;
mret match r with
     | Err e => Some e
     | Ok _ => None
     end.

Definition GetCheckByName (c : Client) (name : string) : Net (result error Check.t) :=
r ← ListChecks c;
mret match r with
     | Err e => Err e
     | Ok checks =>
         match List.find (fun check => String.eqb (Check.Name check) name) (default [] checks) with
         | Some check => Ok check
         | None => Err (NotFoundByName "check" name)
         end
     end.

(** *** notification_channels.go, the remaining calls *)

Module CreateNotificationChannelRequest.
Record t : Type := {
  Name : string;
  Type_ : string;
  Config : option (gmap string json);
  Enabled : bool
}.

Definition marshal (r : t) : json :=
  JObj [("name", JStr (Name r)); ("type", JStr (Type_ r)); ("config", enc_map (Config r));
        ("enabled", JBool (Enabled r))].
End CreateNotificationChannelRequest.

Module UpdateNotificationChannelRequest.
Record t : Type := {
  Name : option string;
  Config : option (option (gmap string json));
  Enabled : option bool
}.

Definition marshal (r : t) : json :=
  JObj (omitempty_ptr "name" JStr (Name r)
        ++ omitempty_ptr "config" enc_map (Config r)
        ++ omitempty_ptr "enabled" JBool (Enabled r)).
End UpdateNotificationChannelRequest.

Definition dec_NotificationChannels : Decoder (option (list NotificationChannel.t)) :=
  dec_slice NotificationChannel.zero unmarshal.

Definition ListNotificationChannels (c : Client)
  : Net (result error (option (list NotificationChannel.t))) :=
r ← DoRequest c "GET" "/v1/notification-channels" None;
mret (@decoded _ dec_NotificationChannels None r).

Definition CreateNotificationChannel (c : Client) (req : CreateNotificationChannelRequest.t)
  : Net (result error NotificationChannel.t) :=
r ← DoRequest c "POST" "/v1/notification-channels"
      (Some (CreateNotificationChannelRequest.marshal req));
mret (decoded NotificationChannel.zero r).

Definition UpdateNotificationChannel (c : Client) (id : string)
    (req : UpdateNotificationChannelRequest.t) : Net (result error NotificationChannel.t) :=
r ← DoRequest c "PUT" ("/v1/notification-channels/" +:+ id)
      (Some (UpdateNotificationChannelRequest.marshal req));
mret (decoded NotificationChannel.zero r).

Definition DeleteNotificationChannel (c : Client) (id : string) : Net (option error) :=
r ← DoRequest c "DELETE" ("/v1/notification-channels/" +:+ id) None;
mret match r with
     | Err e => Some e
     | Ok _ => None
     end.

Definition GetNotificationChannelByName (c : Client) (name : string)
  : Net (result error NotificationChannel.t) :=
r ← ListNotificationChannels c;
mret match r with
     | Err e => Err e
     | Ok channels =>
         match List.find (fun channel => String.eqb (NotificationChannel.Name channel) name)
                 (default [] channels) with
         | Some channel => Ok channel
         | None => Err (NotFoundByName "notification channel" name)
         end
     end.

(** *** alert_rules.go, the remaining calls *)

Module CreateAlertRuleRequest.
Record t : Type := {
  Name : string;
  Condition : option (gmap string json);
  NotificationChannelIDs : option (list string);
  Enabled : bool
}.

Definition marshal (r : t) : json :=
  JObj [("name", JStr (Name r)); ("condition", enc_map (Condition r));
        ("notification_channel_ids", enc_strings (NotificationChannelIDs r));
        ("enabled", JBool (Enabled r))].
End CreateAlertRuleRequest.

Definition dec_AlertRules : Decoder (option (list AlertRule.t)) :=
  dec_slice AlertRule.zero unmarshal.

Definition ListAlertRules (c : Client) (checkID : string)
  : Net (result error (option (list AlertRule.t))) :=
r ← DoRequest c "GET" ("/v1/checks/" +:+ checkID +:+ "/alerts") None;
mret (@decoded _ dec_AlertRules None r).

Definition GetAlertRule (c : Client) (checkID ruleID : string) : Net (result error AlertRule.t) :=
r ← DoRequest c "GET" ("/v1/checks/" +:+ checkID +:+ "/alerts/" +:+ ruleID) None;
mret (decoded AlertRule.zero r).

Definition CreateAlertRule (c : Client) (checkID : string) (req : CreateAlertRuleRequest.t)
  : Net (result error AlertRule.t) :=
r ← DoRequest c "POST" ("/v1/checks/" +:+ checkID +:+ "/alerts")
      (Some (CreateAlertRuleRequest.marshal req));
mret (decoded AlertRule.zero r).

Definition DeleteAlertRule (c : Client) (checkID ruleID : string) : Net (option error) :=
r ← DoRequest c "DELETE" ("/v1/checks/" +:+ checkID +:+ "/alerts/" +:+ ruleID) None;
mret match r with
     | Err e => Some e
     | Ok _ => None
     end.

End client.

(* ===================================================================== *)
(** ** [internal/provider]

    [req.Plan.Get], [req.State.Get] and [resp.State.Set] move a state or plan
    between the framework and a model struct.  Every model below has one
    [types] field for each attribute of its schema, and such fields accept
    null and unknown, so these calls report no diagnostics: an operation
    takes the models and gives back the state of its response. *)

Module provider.
Import client.

(** The conversion loop of the resources: every element of the map as the
    string it holds. *)
Definition string_elements (m : tfMap) : gmap string json :=
  (fun v => JStr (ValueString v)) <$> Elements m.

Definition optional_string (p : option string) : tfString :=
  match p with
  | Some s => Known s
  | None => Null
  end.

(** *** check_resource.go *)

Module checkResource.

Record Model : Type := {
  ID : tfString;
  OrgID : tfString;
  Name : tfString;
  Type_ : tfString;
  Config : tfMap;
  ConfigJSON : tfString;
  IntervalSeconds : tfInt64;
  Regions : tfList;
  Enabled : tfBool;
  SimultaneousRegions : tfBool;
  RecheckOnFailure : tfBool;
  IaCLocked : tfBool;
  HealthStatus : tfString;
  LastChecked : tfString;
  CreatedAt : tfString;
  UpdatedAt : tfString
}.

(** [Create]: the state of the response is the null state until it is
    set. *)
Definition Create (c : Client) (plan : Model) : Net (Response (option Model)) :=
  let failed (ds : diag.Diagnostics) : Net (Response (option Model)) :=
    mret {| Diagnostics := ds; State := None |} in
  let configMap : result diag.Diagnostic (option (gmap string json)) :=
    if (negb (IsNull (ConfigJSON plan)) && negb (String.eqb (ValueString (ConfigJSON plan)) ""))%bool
    then
      match Unmarshal_bytes (ValueString (ConfigJSON plan)) None with
      | Err e =>
          Err (diag.NewErrorDiagnostic "Error Parsing config_json"
                 ("Could not parse config_json as JSON: " +:+ e))
      | Ok m => Ok m
      end
    else if negb (IsNull (Config plan)) then Ok (Some (string_elements (Config plan)))
    else
      Err (diag.NewErrorDiagnostic "Missing Configuration"
             "Either 'config' or 'config_json' must be specified") in
  match configMap with
  | Err d => failed (diag.Append d [])
  | Ok configMap =>
      match ElementsAs (Regions plan) with
      | Err d => failed (diag.Append d [])
      | Ok regions =>
          let createReq :=
            {| CreateCheckRequest.Name := ValueString (Name plan);
               CreateCheckRequest.Type_ := ValueString (Type_ plan);
               CreateCheckRequest.Config := configMap;
               CreateCheckRequest.IntervalSeconds := ValueInt64 (IntervalSeconds plan);
               CreateCheckRequest.Regions := regions;
               CreateCheckRequest.Enabled := ValueBool (Enabled plan);
               CreateCheckRequest.Inverted := None;
               CreateCheckRequest.SimultaneousRegions :=
                 ValueBoolPointer (SimultaneousRegions plan);
               CreateCheckRequest.RecheckOnFailure := ValueBoolPointer (RecheckOnFailure plan);
               CreateCheckRequest.ExpiresAfterSeconds := None |} in
          r ← CreateCheck c createReq;
          match r with
          | Err err =>
              failed (diag.AddError "Error Creating Check"
                        ("Could not create check, unexpected error: " +:+ Error err) [])
          | Ok check =>
              mret {| Diagnostics := [];
                      State := Some
                        {| ID := Known (Check.ID check);
                           OrgID := Known (Check.OrgID check);
                           Name := Name plan;
                           Type_ := Type_ plan;
                           Config := Config plan;
                           ConfigJSON := ConfigJSON plan;
                           IntervalSeconds := IntervalSeconds plan;
                           Regions := Regions plan;
                           Enabled := Enabled plan;
                           SimultaneousRegions := Known (Check.SimultaneousRegions check);
                           RecheckOnFailure := Known (Check.RecheckOnFailure check);
                           IaCLocked := IaCLocked plan;
                           HealthStatus := Known (Check.HealthStatus check);
                           LastChecked := optional_string (Check.LastChecked check);
                           CreatedAt := Known (Check.CreatedAt check);
                           UpdatedAt := Known (Check.UpdatedAt check) |} |}
          end
      end
  end.

(** [Read]: the state of the response is the prior state until it is
    set. *)
Definition Read (c : Client) (state : Model) : Net (Response Model) :=
  r ← GetCheck c (ValueString (ID state));
  match r with
  | Err err =>
      mret {| Diagnostics :=
                diag.AddError "Error Reading Check"
                  ("Could not read check ID " +:+ ValueString (ID state) +:+ ": "
                   +:+ Error err) [];
              State := state |}
  | Ok check =>
      mret {| Diagnostics := [];
              State :=
                {| ID := ID state;
                   OrgID := Known (Check.OrgID check);
                   Name := Known (Check.Name check);
                   Type_ := Known (Check.Type_ check);
                   Config := Config state;
                   ConfigJSON := ConfigJSON state;
                   IntervalSeconds := Known (Check.IntervalSeconds check);
                   Regions := Regions state;
                   Enabled := Known (Check.Enabled check);
                   SimultaneousRegions := Known (Check.SimultaneousRegions check);
                   RecheckOnFailure := Known (Check.RecheckOnFailure check);
                   IaCLocked := IaCLocked state;
                   HealthStatus := Known (Check.HealthStatus check);
                   LastChecked := optional_string (Check.LastChecked check);
                   CreatedAt := Known (Check.CreatedAt check);
                   UpdatedAt := Known (Check.UpdatedAt check) |} |}
  end.

(** [Update]: [prior] is the state the response starts from. *)
Definition Update (c : Client) (plan : Model) (prior : Model) : Net (Response Model) :=
  let failed (ds : diag.Diagnostics) : Net (Response Model) :=
    mret {| Diagnostics := ds; State := prior |} in
  let configMap : result diag.Diagnostic (option (gmap string json)) :=
    if (negb (IsNull (ConfigJSON plan)) && negb (String.eqb (ValueString (ConfigJSON plan)) ""))%bool
    then
      match Unmarshal_bytes (ValueString (ConfigJSON plan)) None with
      | Err e =>
          Err (diag.NewErrorDiagnostic "Error Parsing config_json"
                 ("Could not parse config_json as JSON: " +:+ e))
      | Ok m => Ok m
      end
    else if negb (IsNull (Config plan)) then Ok (Some (string_elements (Config plan)))
    else Ok None in
  match configMap with
  | Err d => failed (diag.Append d [])
  | Ok configMap =>
      match ElementsAs (Regions plan) with
      | Err d => failed (diag.Append d [])
      | Ok regions =>
          let updateReq :=
            {| UpdateCheckRequest.Name := Some (ValueString (Name plan));
               UpdateCheckRequest.Type_ := Some (ValueString (Type_ plan));
               UpdateCheckRequest.Config := Some configMap;
               UpdateCheckRequest.IntervalSeconds := Some (ValueInt64 (IntervalSeconds plan));
               UpdateCheckRequest.Regions := Some regions;
               UpdateCheckRequest.Enabled := Some (ValueBool (Enabled plan));
               UpdateCheckRequest.Inverted := None;
               UpdateCheckRequest.SimultaneousRegions :=
                 Some (ValueBool (SimultaneousRegions plan));
               UpdateCheckRequest.RecheckOnFailure := Some (ValueBool (RecheckOnFailure plan));
               UpdateCheckRequest.ExpiresAfterSeconds := None |} in
          r ← UpdateCheck c (ValueString (ID plan)) updateReq;
          match r with
          | Err err =>
              failed (diag.AddError "Error Updating Check"
                        ("Could not update check, unexpected error: " +:+ Error err) [])
          | Ok check =>
              mret {| Diagnostics := [];
                      State :=
                        {| ID := ID plan;
                           OrgID := Known (Check.OrgID check);
                           Name := Name plan;
                           Type_ := Type_ plan;
                           Config := Config plan;
                           ConfigJSON := ConfigJSON plan;
                           IntervalSeconds := IntervalSeconds plan;
                           Regions := Regions plan;
                           Enabled := Enabled plan;
                           SimultaneousRegions := Known (Check.SimultaneousRegions check);
                           RecheckOnFailure := Known (Check.RecheckOnFailure check);
                           IaCLocked := IaCLocked plan;
                           HealthStatus := Known (Check.HealthStatus check);
                           LastChecked := optional_string (Check.LastChecked check);
                           CreatedAt := Known (Check.CreatedAt check);
                           UpdatedAt := Known (Check.UpdatedAt check) |} |}
          end
      end
  end.

(** [Delete]: the state of the response is the prior state; the framework
    removes it when the method reports no error. *)
Definition Delete (c : Client) (state : Model) : Net (Response Model) :=
  err ← DeleteCheck c (ValueString (ID state));
  match err with
  | Some err =>
      mret {| Diagnostics :=
                diag.AddError "Error Deleting Check"
                  ("Could not delete check, unexpected error: " +:+ Error err) [];
              State := state |}
  | None => mret {| Diagnostics := []; State := state |}
  end.

End checkResource.

(** *** expires_after_seconds_plan_modifier.go *)

Module expiresAfterSecondsModifier.

Record Int64Request : Type := {
  ConfigValue : tfInt64;
  PlanValue : tfInt64;
  StateValue : tfInt64
}.

(** The plan value of the response. *)
Definition PlanModifyInt64 (req : Int64Request) : tfInt64 :=
  if (negb (IsNull (PlanValue req)) && (0 <? ValueInt64 (PlanValue req)))%bool
  then PlanValue req
  else if negb (IsNull (StateValue req)) then StateValue req
  else PlanValue req.

End expiresAfterSecondsModifier.

(** *** alert_rule_resource.go *)

(** [strings.Split] with a separator of one character. *)
Fixpoint Split (s : string) (sep : ascii) : list string :=
  match s with
  | EmptyString => [EmptyString]
  | String c r =>
      if Ascii.eqb c sep then EmptyString :: Split r sep
      else
        match Split r sep with
        | x :: xs => String c x :: xs
        | [] => [String c EmptyString]
        end
  end.

Module alertRuleResource.

Record Model : Type := {
  ID : tfString;
  CheckID : tfString;
  Name : tfString;
  Condition : tfMap;
  NotificationChannelIDs : tfList;
  Enabled : tfBool;
  CreatedAt : tfString;
  UpdatedAt : tfString
}.

Definition null : Model :=
  {| ID := Null; CheckID := Null; Name := Null; Condition := Null;
     NotificationChannelIDs := Null; Enabled := Null; CreatedAt := Null; UpdatedAt := Null |}.

(** The request body [Update] builds, with only the changed fields. *)
Definition updateReq (plan state : Model) (channelIDs : option (list string))
  : UpdateAlertRuleRequest.t :=
  {| UpdateAlertRuleRequest.Name :=
       if negb (String.eqb (ValueString (Name plan)) (ValueString (Name state)))
       then Some (ValueString (Name plan)) else None;
     UpdateAlertRuleRequest.Condition :=
       if negb (Equal (Condition plan) (Condition state))
       then Some (Some (string_elements (Condition plan))) else None;
     UpdateAlertRuleRequest.NotificationChannelIDs :=
       if negb (Equal (NotificationChannelIDs plan) (NotificationChannelIDs state))
       then Some channelIDs else None;
     UpdateAlertRuleRequest.Enabled :=
       if negb (Bool.eqb (ValueBool (Enabled plan)) (ValueBool (Enabled state)))
       then Some (ValueBool (Enabled plan)) else None |}.

Definition Update (c : Client) (plan state : Model) : Net (Response Model) :=
  match ElementsAs (NotificationChannelIDs plan) with
  | Err d => mret {| Diagnostics := diag.Append d []; State := state |}
  | Ok channelIDs =>
      r ← UpdateAlertRule c (ValueString (CheckID state)) (ValueString (ID state))
            (updateReq plan state channelIDs);
      match r with
      | Err err =>
          mret {| Diagnostics := diag.AddError "Error Updating Alert Rule" (Error err) [];
                  State := state |}
      | Ok rule =>
          mret {| Diagnostics := [];
                  State :=
                    {| ID := Known (AlertRule.ID rule);
                       CheckID := CheckID plan;
                       Name := Name plan;
                       Condition := Condition plan;
                       NotificationChannelIDs := NotificationChannelIDs plan;
                       Enabled := Enabled plan;
                       CreatedAt := Known (AlertRule.CreatedAt rule);
                       UpdatedAt := Known (AlertRule.UpdatedAt rule) |} |}
      end
  end.

(** [ImportState]: the state of the response starts null. *)
Definition ImportState (id : string) : Response Model :=
  let parts := Split id ":" in
  if negb (Nat.eqb (length parts) 2) then
    {| Diagnostics :=
         diag.AddError "Invalid Import ID" "Expected import ID in format: check_id:rule_id" [];
       State := null |}
  else
    let checkID := nth 0 parts EmptyString in
    let ruleID := nth 1 parts EmptyString in
    {| Diagnostics := [];
       State :=
         {| ID := Known ruleID; CheckID := Known checkID; Name := Null; Condition := Null;
            NotificationChannelIDs := Null; Enabled := Null; CreatedAt := Null;
            UpdatedAt := Null |} |}.

Definition Create (c : Client) (plan : Model) : Net (Response (option Model)) :=
  match ElementsAs (NotificationChannelIDs plan) with
  | Err d => mret {| Diagnostics := diag.Append d []; State := None |}
  | Ok channelIDs =>
      let createReq :=
        {| CreateAlertRuleRequest.Name := ValueString (Name plan);
           CreateAlertRuleRequest.Condition := Some (string_elements (Condition plan));
           CreateAlertRuleRequest.NotificationChannelIDs := channelIDs;
           CreateAlertRuleRequest.Enabled := ValueBool (Enabled plan) |} in
      r ← CreateAlertRule c (ValueString (CheckID plan)) createReq;
      match r with
      | Err err =>
          mret {| Diagnostics := diag.AddError "Error Creating Alert Rule" (Error err) [];
                  State := None |}
      | Ok rule =>
          mret {| Diagnostics := [];
                  State := Some
                    {| ID := Known (AlertRule.ID rule);
                       CheckID := CheckID plan;
                       Name := Name plan;
                       Condition := Condition plan;
                       NotificationChannelIDs := NotificationChannelIDs plan;
                       Enabled := Enabled plan;
                       CreatedAt := Known (AlertRule.CreatedAt rule);
                       UpdatedAt := Known (AlertRule.UpdatedAt rule) |} |}
      end
  end.

Definition Delete (c : Client) (state : Model) : Net (Response Model) :=
  err ← DeleteAlertRule c (ValueString (CheckID state)) (ValueString (ID state));
  match err with
  | Some err =>
      mret {| Diagnostics := diag.AddError "Error Deleting Alert Rule" (Error err) [];
              State := state |}
  | None => mret {| Diagnostics := []; State := state |}
  end.

End alertRuleResource.

(** *** notification_channel_resource.go *)

Module notificationChannelResource.

Record Model : Type := {
  ID : tfString;
  OrgID : tfString;
  Name : tfString;
  Type_ : tfString;
  Config : tfMap;
  Enabled : tfBool;
  CreatedAt : tfString;
  UpdatedAt : tfString
}.

Definition Read (c : Client) (state : Model) : Net (Response Model) :=
  r ← GetNotificationChannel c (ValueString (ID state));
  match r with
  | Err err =>
      mret {| Diagnostics := diag.AddError "Error Reading Notification Channel" (Error err) [];
              State := state |}
  | Ok channel =>
      mret {| Diagnostics := [];
              State :=
                {| ID := ID state;
                   OrgID := Known (NotificationChannel.OrgID channel);
                   Name := Known (NotificationChannel.Name channel);
                   Type_ := Known (NotificationChannel.Type_ channel);
                   Config := Config state;
                   Enabled := Known (NotificationChannel.Enabled channel);
                   CreatedAt := Known (NotificationChannel.CreatedAt channel);
                   UpdatedAt := Known (NotificationChannel.UpdatedAt channel) |} |}
  end.

Definition Create (c : Client) (plan : Model) : Net (Response (option Model)) :=
  let createReq :=
    {| CreateNotificationChannelRequest.Name := ValueString (Name plan);
       CreateNotificationChannelRequest.Type_ := ValueString (Type_ plan);
       CreateNotificationChannelRequest.Config := Some (string_elements (Config plan));
       CreateNotificationChannelRequest.Enabled := ValueBool (Enabled plan) |} in
  r ← CreateNotificationChannel c createReq;
  match r with
  | Err err =>
      mret {| Diagnostics := diag.AddError "Error Creating Notification Channel" (Error err) [];
              State := None |}
  | Ok channel =>
      mret {| Diagnostics := [];
              State := Some
                {| ID := Known (NotificationChannel.ID channel);
                   OrgID := Known (NotificationChannel.OrgID channel);
                   Name := Name plan;
                   Type_ := Type_ plan;
                   Config := Config plan;
                   Enabled := Enabled plan;
                   CreatedAt := Known (NotificationChannel.CreatedAt channel);
                   UpdatedAt := Known (NotificationChannel.UpdatedAt channel) |} |}
  end.

(** The request body of [Update]: every field of the request type is set. *)
Definition updateReq (plan : Model) : UpdateNotificationChannelRequest.t :=
  {| UpdateNotificationChannelRequest.Name := Some (ValueString (Name plan));
     UpdateNotificationChannelRequest.Config := Some (Some (string_elements (Config plan)));
     UpdateNotificationChannelRequest.Enabled := Some (ValueBool (Enabled plan)) |}.

Definition Update (c : Client) (plan prior : Model) : Net (Response Model) :=
  r ← UpdateNotificationChannel c (ValueString (ID plan)) (updateReq plan);
  match r with
  | Err err =>
      mret {| Diagnostics := diag.AddError "Error Updating Notification Channel" (Error err) [];
              State := prior |}
  | Ok channel =>
      mret {| Diagnostics := [];
              State :=
                {| ID := ID plan;
                   OrgID := OrgID plan;
                   Name := Name plan;
                   Type_ := Type_ plan;
                   Config := Config plan;
                   Enabled := Enabled plan;
                   CreatedAt := CreatedAt plan;
                   UpdatedAt := Known (NotificationChannel.UpdatedAt channel) |} |}
  end.

Definition Delete (c : Client) (state : Model) : Net (Response Model) :=
  err ← DeleteNotificationChannel c (ValueString (ID state));
  match err with
  | Some err =>
      mret {| Diagnostics := diag.AddError "Error Deleting Notification Channel" (Error err) [];
              State := state |}
  | None => mret {| Diagnostics := []; State := state |}
  end.

End notificationChannelResource.

(** *** signup_resource.go *)

Module signupResource.

Record t : Type := { baseURL : string }.

Record Model : Type := {
  ID : tfString;
  Email : tfString;
  OrgName : tfString;
  OrgID : tfString;
  APIKey : tfString;
  VerificationRequired : tfBool
}.

Definition Create (net : Transport) (r : t) (plan : Model) : Net (Response (option Model)) :=
  let signupReq :=
    {| QuickSignupRequest.Email := ValueString (Email plan);
       QuickSignupRequest.OrgName := ValueString (OrgName plan) |} in
  res ← QuickSignup net (baseURL r) signupReq;
  match res with
  | Err err =>
      mret {| Diagnostics := diag.AddError "Error creating signup" (Error err) [];
              State := None |}
  | Ok signupResp =>
      mret {| Diagnostics := [];
              State := Some
                {| ID := Known (QuickSignupResponse.OrgID signupResp);
                   Email := Email plan;
                   OrgName := OrgName plan;
                   OrgID := Known (QuickSignupResponse.OrgID signupResp);
                   APIKey := Known (QuickSignupResponse.APIKey signupResp);
                   VerificationRequired :=
                     Known (QuickSignupResponse.VerificationRequired signupResp) |} |}
  end.

(** [Read] and [Update] set the state they were given. *)
Definition Read (net : Transport) (r : t) (state : Model) : Net (Response Model) :=
  mret {| Diagnostics := []; State := state |}.

Definition Update (net : Transport) (r : t) (plan prior : Model) : Net (Response Model) :=
  mret {| Diagnostics := []; State := plan |}.

(** [Delete] reads the state and returns; the state of the response is
    the prior state, which the framework then removes. *)
Definition Delete (net : Transport) (r : t) (state : Model) : Net (Response Model) :=
  mret {| Diagnostics := []; State := state |}.

End signupResource.

(** *** state_reader.go *)

(** The process environment and the file system of the working directory. *)
Record Host : Type := {
  Getenv : string -> string;
  stat_ok : string -> bool;          (* os.Stat returns no error *)
  Abs : string -> string;            (* filepath.Abs *)
  file : string -> option string     (* os.ReadFile, by absolute path *)
}.

Inductive FileCall : Type :=
| Stat (name : string)
| ReadFile (name : string).

Definition os_Stat (h : Host) (name : string) : Traced FileCall bool := fun log =>
  (stat_ok h name, log ++ [Stat name]).

Definition os_ReadFile (h : Host) (name : string) : Traced FileCall (option string) := fun log =>
  (file h name, log ++ [ReadFile name]).

Module Instance.
Record t : Type := { Attributes : option (gmap string json) }.
Definition zero : t := {| Attributes := None |}.
End Instance.

Module Resource.
Record t : Type := {
  Type_ : string;
  Name : string;
  Instances : option (list Instance.t)
}.
Definition zero : t := {| Type_ := ""; Name := ""; Instances := None |}.
End Resource.

Module TerraformState.
Record t : Type := {
  Version : Z;
  Resources : option (list Resource.t)
}.
Definition zero : t := {| Version := 0; Resources := None |}.
End TerraformState.

Definition dec_Instance : Decoder Instance.t :=
  dec_struct (fun ms cur =>
    attrs <-? decode_field (dec_map JNull dec_any) "attributes" ms (Instance.Attributes cur);
    Ok {| Instance.Attributes := attrs |})%result.

Definition dec_Resource : Decoder Resource.t :=
  dec_struct (fun ms cur =>
    ty <-? decode_field dec_string "type" ms (Resource.Type_ cur);
    name <-? decode_field dec_string "name" ms (Resource.Name cur);
    insts <-? decode_field (dec_slice Instance.zero dec_Instance) "instances" ms
                (Resource.Instances cur);
    Ok {| Resource.Type_ := ty; Resource.Name := name; Resource.Instances := insts |})%result.

Global Instance TerraformState_Unmarshal : Unmarshal TerraformState.t :=
  dec_struct (fun ms cur =>
    version <-? decode_field dec_int "version" ms (TerraformState.Version cur);
    resources <-? decode_field (dec_slice Resource.zero dec_Resource) "resources" ms
                    (TerraformState.Resources cur);
    Ok {| TerraformState.Version := version; TerraformState.Resources := resources |})%result.

Definition candidates : list string := ["terraform.tfstate"; ".terraform/terraform.tfstate"].

Fixpoint first_existing (h : Host) (l : list string) : Traced FileCall string :=
  match l with
  | [] => mret EmptyString
  | candidate :: rest =>
      found ← os_Stat h candidate;
      if (found : bool) then mret (Abs h candidate) else first_existing h rest
  end.

Definition findStateFile (h : Host) : Traced FileCall string := first_existing h candidates.

Definition nl : string := String "010" EmptyString.

Definition state_warning (statePath : string) : string :=
  "Using API key from terraform state (" +:+ statePath +:+ ")." +:+ nl +:+ nl
  +:+ "💡 Tip: For future runs, export the key:" +:+ nl
  +:+ "   export QUISMON_API_KEY=$(terraform output -raw api_key)" +:+ nl +:+ nl
  +:+ "📧 Verify your email to increase your free tier check frequency from 20/hr to 60/hr!".

(** The loop over the resources of the state: the first signup resource
    whose first instance holds a non-empty string [api_key]. *)
Fixpoint signup_key (statePath : string) (resources : list Resource.t) : string * string :=
  match resources with
  | [] => (EmptyString, EmptyString)
  | resource :: rest =>
      if (String.eqb (Resource.Type_ resource) "quismon_signup"
          && Nat.ltb 0 (length (default [] (Resource.Instances resource))))%bool
      then
        let attrs := Instance.Attributes (nth 0 (default [] (Resource.Instances resource))
                                            Instance.zero) in
        match default ∅ attrs !! "api_key" with
        | Some (JStr key) =>
            if negb (String.eqb key "") then (key, state_warning statePath)
            else signup_key statePath rest
        | _ => signup_key statePath rest
        end
      else signup_key statePath rest
  end.

(** [readAPIKeyFromState]: the key and the warning. *)
Definition readAPIKeyFromState (h : Host) : Traced FileCall (string * string) :=
  statePath ← findStateFile h;
  if String.eqb statePath "" then mret (EmptyString, EmptyString)
  else
    data ← os_ReadFile h statePath;
    match data with
    | None => mret (EmptyString, EmptyString)
    | Some data =>
        match Unmarshal_bytes data TerraformState.zero with
        | Err _ => mret (EmptyString, EmptyString)
        | Ok state => mret (signup_key statePath (default [] (TerraformState.Resources state)))
        end
    end.

(** *** provider.go *)

Module quismonProvider.

Record Model : Type := {
  APIKey : tfString;
  BaseURL : tfString
}.

Definition unknown_api_key : string :=
  "The provider cannot create the Quismon API client as there is an unknown configuration value for the API key. "
  +:+ "Either target apply the source of the value first, set the value statically in the configuration, or use the QUISMON_API_KEY environment variable.".

Definition unknown_base_url : string :=
  "The provider cannot create the Quismon API client as there is an unknown configuration value for the base URL. "
  +:+ "Either target apply the source of the value first, set the value statically in the configuration, or use the QUISMON_BASE_URL environment variable.".

(** [Configure]: the state of the response is the client handed to the
    resources and data sources, when there is one. *)
Definition Configure (h : Host) (net : Transport) (config : Model)
  : Traced FileCall (Response (option Client)) :=
  let ds := [] in
  let ds := if IsUnknown (APIKey config)
            then diag.AddAttributeError "api_key" "Unknown Quismon API Key" unknown_api_key ds
            else ds in
  let ds := if IsUnknown (BaseURL config)
            then diag.AddAttributeError "base_url" "Unknown Quismon Base URL" unknown_base_url ds
            else ds in
  if diag.HasError ds then mret {| Diagnostics := ds; State := None |}
  else
    let apiKey := Getenv h "QUISMON_API_KEY" in
    let baseURL := Getenv h "QUISMON_BASE_URL" in
    let apiKey := if negb (IsNull (APIKey config)) then ValueString (APIKey config) else apiKey in
    let baseURL := if negb (IsNull (BaseURL config)) then ValueString (BaseURL config)
                   else baseURL in
    let baseURL := if String.eqb baseURL "" then "https://api.quismon.com" else baseURL in
    '(apiKey, ds) ←
      (if String.eqb apiKey "" then
         '(stateKey, warning) ← readAPIKeyFromState h;
         if negb (String.eqb stateKey "")
         then mret (stateKey, diag.AddWarning "API Key Read from Terraform State" warning ds)
         else mret (apiKey, ds)
       else mret (apiKey, ds));
    match New baseURL apiKey net with
    | Err err =>
        mret {| Diagnostics :=
                  diag.AddError "Unable to Create Quismon API Client"
                    ("An unexpected error occurred when creating the Quismon API client. "
                     +:+ "If the error is not clear, please contact the provider developers."
                     +:+ nl +:+ nl +:+ "Quismon Client Error: " +:+ Error err) ds;
                State := None |}
    | Ok c => mret {| Diagnostics := ds; State := Some c |}
    end.

End quismonProvider.

(** *** check_data_source.go, checks_data_source.go,
    notification_channel_data_source.go *)

Module checkDataSource.

Record Model : Type := {
  Name : tfString;
  ID : tfString;
  Type_ : tfString;
  HealthStatus : tfString
}.

Definition Read (c : Client) (data : Model) : Net (Response (option Model)) :=
  r ← GetCheckByName c (ValueString (Name data));
  match r with
  | Err err =>
      mret {| Diagnostics := diag.AddError "Error Reading Check" (Error err) []; State := None |}
  | Ok check =>
      mret {| Diagnostics := [];
              State := Some {| Name := Name data;
                               ID := Known (Check.ID check);
                               Type_ := Known (Check.Type_ check);
                               HealthStatus := Known (Check.HealthStatus check) |} |}
  end.

End checkDataSource.

Module checksDataSource.

Record Entry : Type := {
  ID : tfString;
  Name : tfString;
  Type_ : tfString;
  HealthStatus : tfString
}.

Definition entry (check : Check.t) : Entry :=
  {| ID := Known (Check.ID check);
     Name := Known (Check.Name check);
     Type_ := Known (Check.Type_ check);
     HealthStatus := Known (Check.HealthStatus check) |}.

(** The [checks] attribute: [None] is the nil slice, which [append] leaves
    when there is no check. *)
Definition Read (c : Client) : Net (Response (option (option (list Entry)))) :=
  r ← ListChecks c;
  match r with
  | Err err =>
      mret {| Diagnostics := diag.AddError "Error Reading Checks" (Error err) []; State := None |}
  | Ok checks =>
      mret {| Diagnostics := [];
              State := Some match default [] checks with
                            | [] => None
                            | l => Some (entry <$> l)
                            end |}
  end.

End checksDataSource.

Module notificationChannelDataSource.

Record Model : Type := {
  Name : tfString;
  ID : tfString;
  Type_ : tfString
}.

Definition Read (c : Client) (data : Model) : Net (Response (option Model)) :=
  r ← GetNotificationChannelByName c (ValueString (Name data));
  match r with
  | Err err =>
      mret {| Diagnostics := diag.AddError "Error Reading Notification Channel" (Error err) [];
              State := None |}
  | Ok channel =>
      mret {| Diagnostics := [];
              State := Some {| Name := Name data;
                               ID := Known (NotificationChannel.ID channel);
                               Type_ := Known (NotificationChannel.Type_ channel) |} |}
  end.

End notificationChannelDataSource.

(** *** regions_data_source.go *)

Module regionsDataSource.

Record region : Type := {
  code : string;
  displayName : string;
  city : string;
  country : string;
  continent : string
}.

Definition R (code displayName city country continent : string) : region :=
  {| code := code; displayName := displayName; city := city; country := country;
     continent := continent |}.

(** The table of [Read], in the order of the source. *)
Definition regions : list region := [
  R "na-east-ewr" "Newark, USA (NYC Metro)" "Newark" "United States" "na";
  R "na-west-sjc" "Silicon Valley, USA" "Silicon Valley" "United States" "na";
  R "na-west-lax" "Los Angeles, USA" "Los Angeles" "United States" "na";
  R "na-west-sea" "Seattle, USA" "Seattle" "United States" "na";
  R "na-central-dfw" "Dallas, USA" "Dallas" "United States" "na";
  R "na-central-ord" "Chicago, USA" "Chicago" "United States" "na";
  R "na-east-mia" "Miami, USA" "Miami" "United States" "na";
  R "na-east-atl" "Atlanta, USA" "Atlanta" "United States" "na";
  R "na-east-yto" "Toronto, Canada" "Toronto" "Canada" "na";
  R "na-central-mex" "Mexico City, Mexico" "Mexico City" "Mexico" "na";
  R "sa-east-sao" "São Paulo, Brazil" "São Paulo" "Brazil" "sa";
  R "sa-west-scl" "Santiago, Chile" "Santiago" "Chile" "sa";
  R "eu-west-ams" "Amsterdam, Netherlands" "Amsterdam" "Netherlands" "eu";
  R "eu-west-lhr" "London, UK" "London" "United Kingdom" "eu";
  R "eu-west-man" "Manchester, UK" "Manchester" "United Kingdom" "eu";
  R "eu-central-fra" "Frankfurt, Germany" "Frankfurt" "Germany" "eu";
  R "eu-west-cdg" "Paris, France" "Paris" "France" "eu";
  R "eu-south-mad" "Madrid, Spain" "Madrid" "Spain" "eu";
  R "eu-north-waw" "Warsaw, Poland" "Warsaw" "Poland" "eu";
  R "eu-north-sto" "Stockholm, Sweden" "Stockholm" "Sweden" "eu";
  R "ap-northeast-nrt" "Tokyo, Japan" "Tokyo" "Japan" "ap";
  R "ap-northeast-itm" "Osaka, Japan" "Osaka" "Japan" "ap";
  R "ap-northeast-icn" "Seoul, South Korea" "Seoul" "South Korea" "ap";
  R "ap-southeast-sin" "Singapore" "Singapore" "Singapore" "ap";
  R "ap-south-bom" "Mumbai, India" "Mumbai" "India" "ap";
  R "ap-south-del" "Delhi NCR, India" "Delhi NCR" "India" "ap";
  R "ap-south-blr" "Bangalore, India" "Bangalore" "India" "ap";
  R "ap-west-tlv" "Tel Aviv, Israel" "Tel Aviv" "Israel" "ap";
  R "au-southeast-syd" "Sydney, Australia" "Sydney" "Australia" "au";
  R "au-south-mel" "Melbourne, Australia" "Melbourne" "Australia" "au";
  R "af-south-jnb" "Johannesburg, South Africa" "Johannesburg" "South Africa" "af";
  R "fr-par-1" "Paris, France (Legacy)" "Paris" "France" "eu"
].

(** The comparison handed to [sort.Slice]: byte-wise order of the codes. *)
Definition less (a b : region) : bool := String.ltb (code a) (code b).

Fixpoint insert_sorted (x : region) (l : list region) : list region :=
  match l with
  | [] => [x]
  | y :: r => if less y x then y :: insert_sorted x r else x :: y :: r
  end.

(** [sort.Slice] by insertion.  The library's algorithm is another one and
    is not stable; the result is the same whenever no two elements compare
    equal, since a list has at most one strictly ascending arrangement. *)
Fixpoint sort_Slice (l : list region) : list region :=
  match l with
  | [] => []
  | x :: r => insert_sorted x (sort_Slice r)
  end.

Record RegionInfo : Type := {
  Code : tfString;
  DisplayName : tfString;
  City : tfString;
  Country : tfString;
  Continent : tfString
}.

Definition info (r : region) : RegionInfo :=
  {| Code := Known (code r); DisplayName := Known (displayName r); City := Known (city r);
     Country := Known (country r); Continent := Known (continent r) |}.

(** [Read]: the [regions] attribute of the state. *)
Definition Read : Response (list RegionInfo) :=
  {| Diagnostics := []; State := info <$> sort_Slice regions |}.

Definition validRegions : list string := [
  "na-east-ewr"; "na-west-sjc"; "na-west-lax";
  "na-west-sea"; "na-central-dfw"; "na-central-ord";
  "na-east-mia"; "na-east-atl"; "na-east-yto";
  "na-central-mex";
  "sa-east-sao"; "sa-west-scl";
  "eu-west-ams"; "eu-west-lhr"; "eu-west-man";
  "eu-central-fra"; "eu-west-cdg"; "eu-south-mad";
  "eu-north-waw"; "eu-north-sto";
  "ap-northeast-nrt"; "ap-northeast-itm";
  "ap-northeast-icn"; "ap-southeast-sin";
  "ap-south-bom"; "ap-south-del"; "ap-south-blr";
  "ap-west-tlv";
  "au-southeast-syd"; "au-south-mel";
  "af-south-jnb";
  "fr-par-1";
  "us-east-1"; "eu-west-1"; "ap-southeast-1"
].

(** [ValidateRegion]: [None] is the nil error, otherwise the message. *)
Definition ValidateRegion (code : string) : option string :=
  if negb (existsb (String.eqb code) validRegions) then
    Some ("invalid region code: " +:+ code
          +:+ ". Use quismon_regions data source to list available regions")
  else None.

End regionsDataSource.

(** *** organization_otlp_resource.go *)

Module organizationOTLPResource.

Record Model : Type := {
  Enabled : tfBool;
  Endpoint : tfString;
  Headers : tfMap;
  ExportIntervalSeconds : tfInt64
}.

Module OTLPConfigResponse.
Record t : Type := {
  Enabled : bool;
  Endpoint : option string;
  Headers : option (gmap string json);
  ExportIntervalSeconds : option Z
}.
Definition zero : t :=
  {| Enabled := false; Endpoint := None; Headers := None; ExportIntervalSeconds := None |}.
End OTLPConfigResponse.

Definition dec_OTLPConfigResponse : Decoder OTLPConfigResponse.t :=
  dec_struct (fun ms cur =>
    enabled <-? decode_field dec_bool "otlp_enabled" ms (OTLPConfigResponse.Enabled cur);
    endpoint <-? decode_field (dec_ptr "" dec_string) "otlp_endpoint" ms
                   (OTLPConfigResponse.Endpoint cur);
    headers <-? decode_field (dec_map JNull dec_any) "otlp_headers" ms
                  (OTLPConfigResponse.Headers cur);
    interval <-? decode_field (dec_ptr 0 dec_int) "otlp_export_interval_seconds" ms
                   (OTLPConfigResponse.ExportIntervalSeconds cur);
    Ok {| OTLPConfigResponse.Enabled := enabled; OTLPConfigResponse.Endpoint := endpoint;
          OTLPConfigResponse.Headers := headers;
          OTLPConfigResponse.ExportIntervalSeconds := interval |})%result.

(** The target of [getOTLPConfig]: a struct whose one field, tagged [data],
    is the configuration. *)
Definition dec_wrapped : Decoder OTLPConfigResponse.t :=
  dec_struct (fun ms cur => decode_field dec_OTLPConfigResponse "data" ms cur).

Definition getOTLPConfig (c : Client) : Net (result error OTLPConfigResponse.t) :=
  r ← DoRequest c "GET" "/v1/org/otlp" None;
  mret (@decoded _ dec_wrapped OTLPConfigResponse.zero r).

(** [Map.ElementsAs(ctx, &map[string]string, false)]: an unknown map, or a
    null or unknown element, is a conversion error; a null map is the nil
    map. *)
Definition MapElementsAs (m : tfMap) : result diag.Diagnostic (option (gmap string string)) :=
  match m with
  | Null => Ok None
  | Unknown => Err conversion_error
  | Known elems =>
      if forallb (fun kv => match snd kv with Known _ => true | _ => false end)
           (map_to_list elems)
      then Ok (Some (ValueString <$> elems))
      else Err conversion_error
  end.

(** The request body that [Create] and [Update] build from the plan, by the
    same lines in both. *)
Definition updateReq (plan : Model) : result diag.Diagnostic (gmap string json) :=
  let req : gmap string json := {[ "enabled" := JBool (ValueBool (Enabled plan)) ]} in
  let req := if negb (IsNull (Endpoint plan))
             then <["endpoint" := JStr (ValueString (Endpoint plan))]> req else req in
  match (if negb (IsNull (Headers plan)) then
           match MapElementsAs (Headers plan) with
           | Err d => Err d
           | Ok headers => Ok (<["headers" := JObj (map_to_list (JStr <$> default ∅ headers))]> req)
           end
         else Ok req) with
  | Err d => Err d
  | Ok req =>
      Ok (if negb (IsNull (ExportIntervalSeconds plan))
          then <["export_interval_seconds" := enc_int (ValueInt64 (ExportIntervalSeconds plan))]> req
          else req)
  end.

Definition optional_int (p : option Z) : tfInt64 :=
  match p with
  | Some z => Known z
  | None => Null
  end.

Definition Create (c : Client) (plan : Model) : Net (Response (option Model)) :=
  match updateReq plan with
  | Err d => mret {| Diagnostics := diag.Append d []; State := None |}
  | Ok req =>
      r ← DoRequest c "PUT" "/v1/org/otlp" (Some (enc_map (Some req)));
      match r with
      | Err err =>
          mret {| Diagnostics :=
                    diag.AddError "Error creating organization OTLP config"
                      ("Could not create OTLP config, unexpected error: " +:+ Error err) [];
                  State := None |}
      | Ok _ =>
          cfg ← getOTLPConfig c;
          match cfg with
          | Err err =>
              mret {| Diagnostics :=
                        diag.AddError "Error reading organization OTLP config"
                          ("Could not read OTLP config after create: " +:+ Error err) [];
                      State := None |}
          | Ok config =>
              mret {| Diagnostics := [];
                      State := Some
                        {| Enabled := Known (OTLPConfigResponse.Enabled config);
                           Endpoint := optional_string (OTLPConfigResponse.Endpoint config);
                           Headers := Headers plan;
                           ExportIntervalSeconds := ExportIntervalSeconds plan |} |}
          end
      end
  end.

Definition Read (c : Client) (state : Model) : Net (Response Model) :=
  cfg ← getOTLPConfig c;
  match cfg with
  | Err err =>
      mret {| Diagnostics :=
                diag.AddError "Error reading organization OTLP config"
                  ("Could not read OTLP config: " +:+ Error err) [];
              State := state |}
  | Ok config =>
      mret {| Diagnostics := [];
              State :=
                {| Enabled := Known (OTLPConfigResponse.Enabled config);
                   Endpoint := optional_string (OTLPConfigResponse.Endpoint config);
                   Headers := Headers state;
                   ExportIntervalSeconds :=
                     optional_int (OTLPConfigResponse.ExportIntervalSeconds config) |} |}
  end.

Definition Update (c : Client) (plan prior : Model) : Net (Response Model) :=
  match updateReq plan with
  | Err d => mret {| Diagnostics := diag.Append d []; State := prior |}
  | Ok req =>
      r ← DoRequest c "PUT" "/v1/org/otlp" (Some (enc_map (Some req)));
      match r with
      | Err err =>
          mret {| Diagnostics :=
                    diag.AddError "Error updating organization OTLP config"
                      ("Could not update OTLP config, unexpected error: " +:+ Error err) [];
                  State := prior |}
      | Ok _ =>
          cfg ← getOTLPConfig c;
          match cfg with
          | Err err =>
              mret {| Diagnostics :=
                        diag.AddError "Error reading organization OTLP config"
                          ("Could not read OTLP config after update: " +:+ Error err) [];
                      State := prior |}
          | Ok config =>
              mret {| Diagnostics := [];
                      State :=
                        {| Enabled := Known (OTLPConfigResponse.Enabled config);
                           Endpoint := optional_string (OTLPConfigResponse.Endpoint config);
                           Headers := Headers plan;
                           ExportIntervalSeconds :=
                             optional_int (OTLPConfigResponse.ExportIntervalSeconds config) |} |}
          end
      end
  end.

(** The body of [Delete]: export disabled and the endpoint cleared. *)
Definition deleteReq : gmap string json :=
  {[ "enabled" := JBool false; "endpoint" := JStr "" ]}.

Definition Delete (c : Client) (state : Model) : Net (Response Model) :=
  r ← DoRequest c "PUT" "/v1/org/otlp" (Some (enc_map (Some deleteReq)));
  match r with
  | Err err =>
      mret {| Diagnostics :=
                diag.AddError "Error deleting organization OTLP config"
                  ("Could not disable OTLP config, unexpected error: " +:+ Error err) [];
              State := state |}
  | Ok _ => mret {| Diagnostics := []; State := state |}
  end.

End organizationOTLPResource.

End provider.

(* ===================================================================== *)
(** ** Concrete servers and inputs used in the examples *)

Import client provider.

(** JSON texts are written with apostrophes for the double quotes. *)
Fixpoint js (s : string) : string :=
  match s with
  | String c r => String (if Ascii.eqb c "'" then Json.dquote else c) (js r)
  | EmptyString => EmptyString
  end.

(** A service that gives the same reply to every request. *)
Definition replies (status : Z) (body : string) : Transport := fun _ => Replied status body.

Definition client_of (t : Transport) : Client :=
  {| BaseURL := "https://api.quismon.com"; APIKey := "qm_key"; HTTPClient := t |}.

(** The number of occurrences of a character in a string. *)
Fixpoint count_char (sep : ascii) (s : string) : nat :=
  match s with
  | String c r => (if Ascii.eqb c sep then 1 else 0) + count_char sep r
  | EmptyString => 0
  end.

(** The state [ImportState] gives for a well-formed identifier, and the
    response it gives for any other. *)
Definition imported (checkID ruleID : string) : Response alertRuleResource.Model :=
  {| Diagnostics := [];
     State :=
       {| alertRuleResource.ID := Known ruleID;
          alertRuleResource.CheckID := Known checkID;
          alertRuleResource.Name := Null;
          alertRuleResource.Condition := Null;
          alertRuleResource.NotificationChannelIDs := Null;
          alertRuleResource.Enabled := Null;
          alertRuleResource.CreatedAt := Null;
          alertRuleResource.UpdatedAt := Null |} |}.

Definition invalid_import_id : Response alertRuleResource.Model :=
  {| Diagnostics :=
       [diag.NewErrorDiagnostic "Invalid Import ID" "Expected import ID in format: check_id:rule_id"];
     State := alertRuleResource.null |}.

Definition a_channel : NotificationChannel.t :=
  {| NotificationChannel.ID := "ch_1";
     NotificationChannel.OrgID := "org_1";
     NotificationChannel.Name := "ops";
     NotificationChannel.Type_ := "email";
     NotificationChannel.Config := None;
     NotificationChannel.Enabled := true;
     NotificationChannel.CreatedAt := "2025-01-01T00:00:00Z";
     NotificationChannel.UpdatedAt := "2025-01-02T00:00:00Z" |}.

(** The message of the error for a reply with status 400 or more: the
    [error] of the envelope when the body is an envelope that has one, the
    body itself otherwise. *)
Definition error_message (bodyBytes : string) : string :=
  match Unmarshal_bytes bodyBytes APIResponse.zero with
  | Ok env => default bodyBytes (APIResponse.Error env)
  | Err _ => bodyBytes
  end.

Definition a_check_state : checkResource.Model :=
  {| checkResource.ID := Known "chk_1";
     checkResource.OrgID := Known "org_1";
     checkResource.Name := Known "api";
     checkResource.Type_ := Known "https";
     checkResource.Config := Known {[ "url" := Known "https://example.com" ]};
     checkResource.ConfigJSON := Null;
     checkResource.IntervalSeconds := Known 60;
     checkResource.Regions := Known [Known "na-east-ewr"];
     checkResource.Enabled := Known true;
     checkResource.SimultaneousRegions := Known false;
     checkResource.RecheckOnFailure := Known false;
     checkResource.IaCLocked := Known false;
     checkResource.HealthStatus := Known "healthy";
     checkResource.LastChecked := Null;
     checkResource.CreatedAt := Known "2025-01-01T00:00:00Z";
     checkResource.UpdatedAt := Known "2025-01-01T00:00:00Z" |}.

Definition a_channel_state : notificationChannelResource.Model :=
  {| notificationChannelResource.ID := Known "ch_1";
     notificationChannelResource.OrgID := Known "org_1";
     notificationChannelResource.Name := Known "ops";
     notificationChannelResource.Type_ := Known "webhook";
     notificationChannelResource.Config :=
       Known {[ "url" := Known "https://hooks.example.com"; "secret" := Known "s3cr3t" ]};
     notificationChannelResource.Enabled := Known true;
     notificationChannelResource.CreatedAt := Known "2025-01-01T00:00:00Z";
     notificationChannelResource.UpdatedAt := Known "2025-01-01T00:00:00Z" |}.

(** A reply to a channel read that redacts the secret and names another id. *)
Definition redacted_reply : string :=
  js "{'data':{'id':'ch_other','org_id':'org_1','name':'ops-renamed','type':'webhook','config':{'url':'https://hooks.example.com','secret':'***REDACTED***'},'enabled':false,'created_at':'2025-01-01T00:00:00Z','updated_at':'2025-02-02T00:00:00Z'}}".

Definition missing_configuration : diag.Diagnostic :=
  diag.NewErrorDiagnostic "Missing Configuration"
    "Either 'config' or 'config_json' must be specified".

(** The request [checkResource.Update] sends for a plan without [config] and
    without [config_json]: the nil map goes out as [null]. *)
Definition update_without_config (c : Client) (plan : checkResource.Model)
    (regions : option (list string)) : Request :=
  build_request c "PUT" ("/v1/checks/" +:+ ValueString (checkResource.ID plan))
    (Some (UpdateCheckRequest.marshal
       {| UpdateCheckRequest.Name := Some (ValueString (checkResource.Name plan));
          UpdateCheckRequest.Type_ := Some (ValueString (checkResource.Type_ plan));
          UpdateCheckRequest.Config := Some None;
          UpdateCheckRequest.IntervalSeconds :=
            Some (ValueInt64 (checkResource.IntervalSeconds plan));
          UpdateCheckRequest.Regions := Some regions;
          UpdateCheckRequest.Enabled := Some (ValueBool (checkResource.Enabled plan));
          UpdateCheckRequest.Inverted := None;
          UpdateCheckRequest.SimultaneousRegions :=
            Some (ValueBool (checkResource.SimultaneousRegions plan));
          UpdateCheckRequest.RecheckOnFailure :=
            Some (ValueBool (checkResource.RecheckOnFailure plan));
          UpdateCheckRequest.ExpiresAfterSeconds := None |})).

Definition with_config (cfg : tfMap) (cfgJSON : tfString) (plan : checkResource.Model)
  : checkResource.Model :=
  {| checkResource.ID := checkResource.ID plan;
     checkResource.OrgID := checkResource.OrgID plan;
     checkResource.Name := checkResource.Name plan;
     checkResource.Type_ := checkResource.Type_ plan;
     checkResource.Config := cfg;
     checkResource.ConfigJSON := cfgJSON;
     checkResource.IntervalSeconds := checkResource.IntervalSeconds plan;
     checkResource.Regions := checkResource.Regions plan;
     checkResource.Enabled := checkResource.Enabled plan;
     checkResource.SimultaneousRegions := checkResource.SimultaneousRegions plan;
     checkResource.RecheckOnFailure := checkResource.RecheckOnFailure plan;
     checkResource.IaCLocked := checkResource.IaCLocked plan;
     checkResource.HealthStatus := checkResource.HealthStatus plan;
     checkResource.LastChecked := checkResource.LastChecked plan;
     checkResource.CreatedAt := checkResource.CreatedAt plan;
     checkResource.UpdatedAt := checkResource.UpdatedAt plan |}.

(** A plan that declares neither form of configuration. *)
Definition plan_without_config : checkResource.Model := with_config Null Null a_check_state.

(** A plan that declares both forms. *)
Definition plan_with_both : checkResource.Model :=
  with_config (Known {[ "url" := Known "https://other"; "verify" := Known "no" ]})
    (Known (js "{'url':'https://x','method':'GET'}")) a_check_state.

Definition a_check_reply : string :=
  js "{'data':{'id':'chk_1','org_id':'org_1','name':'api','type':'https','interval_seconds':60,'enabled':true,'health_status':'unknown','created_at':'2025-01-01T00:00:00Z','updated_at':'2025-03-03T00:00:00Z'}}".




(** The key [Configure] has after the configuration and the environment:
    the configured value when it is not null, the variable otherwise. *)
Definition declared_api_key (h : Host) (config : quismonProvider.Model) : string :=
  if IsNull (quismonProvider.APIKey config) then Getenv h "QUISMON_API_KEY"
  else ValueString (quismonProvider.APIKey config).

Definition state_key_warning (warning : string) : diag.Diagnostic :=
  diag.NewWarningDiagnostic "API Key Read from Terraform State" warning.

Definition a_state_file : string :=
  js "{'version':4,'resources':[{'type':'quismon_check','name':'api','instances':[{'attributes':{'id':'chk_1'}}]},{'type':'quismon_signup','name':'main','instances':[{'attributes':{'api_key':'qm_from_state','org_id':'org_1'}}]}]}".

(** A working directory with a state file, and [QUISMON_API_KEY] set to
    [envKey]. *)
Definition host_with (envKey : string) : Host :=
  {| Getenv := fun name => if String.eqb name "QUISMON_API_KEY" then envKey else EmptyString;
     stat_ok := fun name => String.eqb name "terraform.tfstate";
     Abs := fun name => "/work/" +:+ name;
     file := fun name => if String.eqb name "/work/terraform.tfstate" then Some a_state_file
                         else None |}.

Definition config_of (apiKey : tfString) : quismonProvider.Model :=
  {| quismonProvider.APIKey := apiKey; quismonProvider.BaseURL := Null |}.

(** A reply to a delete that carries an error in a successful envelope. *)
Definition refused_in_envelope : string := js "{'error':'check is locked'}".

(** A list reply in which two checks have the same name. *)
Definition two_checks_reply : string :=
  js "{'data':[{'id':'chk_0','name':'db','type':'tcp','health_status':'healthy'},{'id':'chk_1','name':'api','type':'https','health_status':'healthy'},{'id':'chk_2','name':'api','type':'http','health_status':'unhealthy'}]}".

Definition two_channels_reply : string :=
  js "{'data':[{'id':'ch_1','name':'ops','type':'email'},{'id':'ch_2','name':'ops','type':'slack'}]}".

Definition a_channel_query (name : string) : notificationChannelDataSource.Model :=
  {| notificationChannelDataSource.Name := Known name;
     notificationChannelDataSource.ID := Null;
     notificationChannelDataSource.Type_ := Null |}.

Definition with_regions (regions : tfList) (plan : checkResource.Model) : checkResource.Model :=
  {| checkResource.ID := checkResource.ID plan;
     checkResource.OrgID := checkResource.OrgID plan;
     checkResource.Name := checkResource.Name plan;
     checkResource.Type_ := checkResource.Type_ plan;
     checkResource.Config := checkResource.Config plan;
     checkResource.ConfigJSON := checkResource.ConfigJSON plan;
     checkResource.IntervalSeconds := checkResource.IntervalSeconds plan;
     checkResource.Regions := regions;
     checkResource.Enabled := checkResource.Enabled plan;
     checkResource.SimultaneousRegions := checkResource.SimultaneousRegions plan;
     checkResource.RecheckOnFailure := checkResource.RecheckOnFailure plan;
     checkResource.IaCLocked := checkResource.IaCLocked plan;
     checkResource.HealthStatus := checkResource.HealthStatus plan;
     checkResource.LastChecked := checkResource.LastChecked plan;
     checkResource.CreatedAt := checkResource.CreatedAt plan;
     checkResource.UpdatedAt := checkResource.UpdatedAt plan |}.

(** A read reply in which the service reports other regions and another
    configuration than the state holds. *)
Definition drifted_check_reply : string :=
  js "{'data':{'id':'chk_1','org_id':'org_1','name':'api','type':'https','config':{'url':'https://changed.example.com'},'interval_seconds':300,'regions':['eu-west-ams','ap-south-bom'],'enabled':false,'health_status':'unhealthy','last_checked':'2025-04-04T00:00:00Z','created_at':'2025-01-01T00:00:00Z','updated_at':'2025-04-04T00:00:00Z'}}".

(** The same channel planned with another type and another name. *)
Definition a_channel_plan : notificationChannelResource.Model :=
  {| notificationChannelResource.ID := Known "ch_1";
     notificationChannelResource.OrgID := Known "org_1";
     notificationChannelResource.Name := Known "ops-renamed";
     notificationChannelResource.Type_ := Known "slack";
     notificationChannelResource.Config :=
       Known {[ "webhook_url" := Known "https://hooks.example.com/slack" ]};
     notificationChannelResource.Enabled := Known true;
     notificationChannelResource.CreatedAt := Known "2025-01-01T00:00:00Z";
     notificationChannelResource.UpdatedAt := Unknown |}.

(** Every element compares below every later one. *)
Fixpoint ascending (l : list regionsDataSource.region) : bool :=
  match l with
  | [] => true
  | x :: r => (forallb (regionsDataSource.less x) r && ascending r)%bool
  end.

Definition old_style_codes : list string := ["us-east-1"; "eu-west-1"; "ap-southeast-1"].

(** A resource of a state file holds a key when it is a signup whose first
    instance has a non-empty string under [api_key]. *)
Definition holds_key (r : Resource.t) (key : string) : Prop :=
  Resource.Type_ r = "quismon_signup" /\
  key <> EmptyString /\
  exists inst rest attrs,
    Resource.Instances r = Some (inst :: rest) /\
    Instance.Attributes inst = Some attrs /\
    attrs !! "api_key" = Some (JStr key).

Definition signup_with (instances : list (option (gmap string json))) : Resource.t :=
  {| Resource.Type_ := "quismon_signup"; Resource.Name := "main";
     Resource.Instances := Some ((fun a => {| Instance.Attributes := a |}) <$> instances) |}.

(** The base URL [Configure] has after the configuration and the
    environment, before the default. *)
Definition declared_base_url (h : Host) (config : quismonProvider.Model) : string :=
  if IsNull (quismonProvider.BaseURL config) then Getenv h "QUISMON_BASE_URL"
  else ValueString (quismonProvider.BaseURL config).

Definition a_signup_plan (orgName : tfString) : signupResource.Model :=
  {| signupResource.ID := Unknown;
     signupResource.Email := Known "dev@example.com";
     signupResource.OrgName := orgName;
     signupResource.OrgID := Unknown;
     signupResource.APIKey := Unknown;
     signupResource.VerificationRequired := Unknown |}.

Definition a_signup_reply : string :=
  js "{'data':{'org_id':'org_9','api_key':'qm_new','email':'dev@example.com','verification_required':true}}".

Definition an_otlp_plan : organizationOTLPResource.Model :=
  {| organizationOTLPResource.Enabled := Known true;
     organizationOTLPResource.Endpoint := Known "https://otlp.example.com:4318/v1/metrics";
     organizationOTLPResource.Headers := Known {[ "Authorization" := Known "Bearer t0ken" ]};
     organizationOTLPResource.ExportIntervalSeconds := Null |}.


Definition otlp_reply_nested : string :=
  js "{'data':{'data':{'otlp_enabled':true,'otlp_endpoint':'https://otlp.example.com:4318/v1/metrics','otlp_export_interval_seconds':30}}}".

(* ===================================================================== *)
(** ** Properties *)

(** Unfold the trace monad. *)
Ltac run := unfold mbind, mret, Traced_bind, Traced_ret, calls, outcome in *; simpl in *.

(** *** The plan modifier of [expires_after_seconds] *)

Section ExpiresAfterSeconds.
Import expiresAfterSecondsModifier.

Lemma PlanModifyInt64_cases (req : Int64Request) :
  PlanModifyInt64 req = PlanValue req \/ PlanModifyInt64 req = StateValue req.
Proof.
  unfold PlanModifyInt64.
  destruct (negb (IsNull (PlanValue req)) && (0 <? ValueInt64 (PlanValue req)))%bool; auto.
  destruct (negb (IsNull (StateValue req))); auto.
Qed.

(** C5.  When the prior state holds a value (it is not null), a planned
    value that is null or not strictly positive is replaced by the state
    value, a planned value that is non-null and strictly positive is kept,
    and the result differs from the state value only in that second case. *)
Theorem PlanModifyInt64_preserves_state (req : Int64Request) :
  IsNull (StateValue req) = false ->
  (IsNull (PlanValue req) = true \/ ValueInt64 (PlanValue req) <= 0 ->
     PlanModifyInt64 req = StateValue req) /\
  (IsNull (PlanValue req) = false /\ 0 < ValueInt64 (PlanValue req) ->
     PlanModifyInt64 req = PlanValue req) /\
  (PlanModifyInt64 req <> StateValue req ->
     PlanModifyInt64 req = PlanValue req /\
     IsNull (PlanValue req) = false /\ 0 < ValueInt64 (PlanValue req)).
Proof.
  intros Hstate. unfold PlanModifyInt64. rewrite Hstate. simpl.
  destruct (IsNull (PlanValue req)) eqn:Hnull; simpl.
  - repeat split; auto; intros; try tauto. destruct H; discriminate.
  - destruct (0 <? ValueInt64 (PlanValue req)) eqn:Hpos.
    + apply Z.ltb_lt in Hpos. repeat split; auto.
      intros [H | H]; [discriminate | lia].
    + apply Z.ltb_ge in Hpos. repeat split; auto; try tauto.
      intros [_ H]. lia.
Qed.

Lemma PlanModifyInt64_preserves_state_witness :
  PlanModifyInt64 {| ConfigValue := Null; PlanValue := Null; StateValue := Known 3600 |}
    = Known 3600 /\
  PlanModifyInt64 {| ConfigValue := Known 0; PlanValue := Known 0; StateValue := Known 3600 |}
    = Known 3600 /\
  PlanModifyInt64 {| ConfigValue := Known 60; PlanValue := Known 60; StateValue := Known 3600 |}
    = Known 60.
Proof.
  split; [| split].
  - apply (proj1 (PlanModifyInt64_preserves_state
             {| ConfigValue := Null; PlanValue := Null; StateValue := Known 3600 |} eq_refl)).
    left; reflexivity.
  - apply (proj1 (PlanModifyInt64_preserves_state
             {| ConfigValue := Known 0; PlanValue := Known 0; StateValue := Known 3600 |} eq_refl)).
    right; simpl; lia.
  - apply (proj1 (proj2 (PlanModifyInt64_preserves_state
             {| ConfigValue := Known 60; PlanValue := Known 60; StateValue := Known 3600 |} eq_refl))).
    split; [reflexivity | simpl; lia].
Defined.

End ExpiresAfterSeconds.

(** *** Import of an alert rule *)

Section AlertRuleImport.
Import alertRuleResource.

Lemma Split_length (s : string) (sep : ascii) :
  length (Split s sep) = S (count_char sep s).
Proof.
  induction s as [| c r IH]; simpl; [reflexivity |].
  destruct (Ascii.eqb c sep); simpl.
  - now rewrite IH.
  - destruct (Split r sep) as [| x xs]; simpl in *; [discriminate | assumption].
Qed.

Lemma Split_no_sep (s : string) (sep : ascii) :
  count_char sep s = 0%nat -> Split s sep = [s].
Proof.
  induction s as [| c r IH]; simpl; [reflexivity |].
  destruct (Ascii.eqb c sep); simpl; [discriminate |].
  intros H. now rewrite (IH H).
Qed.

Lemma Split_first (a b : string) (sep : ascii) :
  count_char sep a = 0%nat ->
  Split (a +:+ String sep b) sep = a :: Split b sep.
Proof.
  induction a as [| c r IH]; simpl.
  - intros _. now rewrite Ascii.eqb_refl.
  - destruct (Ascii.eqb c sep); simpl; [discriminate |].
    intros H. now rewrite (IH H).
Qed.

(** C8.  An identifier made of two parts without colon, joined by one
    colon, sets [check_id] to the first part and [id] to the second; an
    identifier whose number of colons is not one (so that it does not split
    into exactly two parts) gives the "Invalid Import ID" error diagnostic
    and sets neither attribute. *)
Theorem ImportState_composite_id :
  (forall checkID ruleID : string,
      count_char ":" checkID = 0%nat -> count_char ":" ruleID = 0%nat ->
      ImportState (checkID +:+ ":" +:+ ruleID) = imported checkID ruleID) /\
  (forall id : string,
      count_char ":" id <> 1%nat ->
      length (Split id ":") <> 2%nat /\ ImportState id = invalid_import_id).
Proof.
  split.
  - intros a b Ha Hb. unfold ImportState.
    change (a +:+ ":" +:+ b) with (a +:+ String ":" b).
    rewrite (Split_first a b ":" Ha), (Split_no_sep b ":" Hb). reflexivity.
  - intros id Hid.
    assert (Hlen : length (Split id ":") <> 2%nat) by (rewrite Split_length; lia).
    split; [exact Hlen |].
    unfold ImportState.
    destruct (Nat.eqb (length (Split id ":")) 2) eqn:E.
    + apply Nat.eqb_eq in E. contradiction.
    + reflexivity.
Qed.

Lemma ImportState_composite_id_witness :
  ImportState "abc:def" = imported "abc" "def" /\
  ImportState "abc" = invalid_import_id /\
  ImportState "a:b:c" = invalid_import_id.
Proof.
  split; [| split].
  - apply (proj1 ImportState_composite_id "abc" "def"); reflexivity.
  - apply (proj2 ImportState_composite_id "abc"). simpl. lia.
  - apply (proj2 ImportState_composite_id "a:b:c"). simpl. lia.
Defined.

End AlertRuleImport.

(** *** Deleting a signup *)

(** C9.  [Delete] of the signup resource hands no request to the network,
    whatever the network, the resource and the state are, and reports no
    diagnostic: the list of requests sent is the one it started with. *)
Theorem signup_Delete_no_network_call
    (net : Transport) (r : signupResource.t) (state : signupResource.Model)
    (log : list Request) :
  snd (signupResource.Delete net r state log) = log /\
  Diagnostics (fst (signupResource.Delete net r state log)) = [] /\
  calls (signupResource.Delete net r state) = [].
Proof. repeat split. Qed.

(** By contrast, creating a signup does send one request when the base URL is
    set and the request can be built. *)
Lemma signup_Create_sends_request
    (net : Transport) (r : signupResource.t) (plan : signupResource.Model) :
  signupResource.baseURL r <> "" ->
  (forall req e, net req <> RequestRejected e) ->
  length (calls (signupResource.Create net r plan)) = 1%nat.
Proof.
  intros Hurl Hnet. unfold signupResource.Create, QuickSignup.
  destruct (String.eqb (signupResource.baseURL r) "") eqn:E.
  - apply String.eqb_eq in E. contradiction.
  - run. unfold send.
    match goal with |- context [net ?q] => destruct (net q) eqn:Hq end;
      try (exfalso; eapply Hnet; eassumption); simpl;
      repeat match goal with |- context [match ?x with _ => _ end] => destruct x end;
      reflexivity.
Qed.

(** *** The response envelope *)

(** C10.  [UnmarshalAPIResponse], for every payload and every target: a
    payload that does not decode as an envelope gives an error; an envelope
    whose [error] is not null gives the error with the message "API error: "
    followed by that text; an envelope without [error] and without [data]
    gives success and the target as it was. *)
Theorem UnmarshalAPIResponse_envelope
    {T : Type} `{Unmarshal T} (data : string) (v : T) :
  (forall e, Unmarshal_bytes data APIResponse.zero = Err e ->
     UnmarshalAPIResponse data v = Err (UnmarshalResponseFailed e)) /\
  (forall env msg,
     Unmarshal_bytes data APIResponse.zero = Ok env ->
     APIResponse.Error env = Some msg ->
     UnmarshalAPIResponse data v = Err (EnvelopeError msg) /\
     Error (EnvelopeError msg) = "API error: " +:+ msg) /\
  (forall env,
     Unmarshal_bytes data APIResponse.zero = Ok env ->
     APIResponse.Error env = None ->
     APIResponse.Data env = None ->
     UnmarshalAPIResponse data v = Ok v).
Proof.
  unfold UnmarshalAPIResponse. split; [| split].
  - intros e He. now rewrite He.
  - intros env msg He Herr. rewrite He, Herr. split; reflexivity.
  - intros env He Herr Hdata. now rewrite He, Herr, Hdata.
Qed.

Lemma UnmarshalAPIResponse_envelope_witness :
  UnmarshalAPIResponse "not json" a_channel = Err (UnmarshalResponseFailed syntax_error) /\
  UnmarshalAPIResponse (js "{'data':{'id':'ch_2'},'error':'boom'}") a_channel
    = Err (EnvelopeError "boom") /\
  UnmarshalAPIResponse (js "{}") a_channel = Ok a_channel.
Proof.
  split; [| split].
  - apply (proj1 (UnmarshalAPIResponse_envelope "not json" a_channel)). reflexivity.
  - eapply (proj1 (proj2 (UnmarshalAPIResponse_envelope _ a_channel))); reflexivity.
  - eapply (proj2 (proj2 (UnmarshalAPIResponse_envelope _ a_channel))); reflexivity.
Defined.

(** *** Error replies *)

Lemma DoRequest_reply (c : Client) (method path : string) (body : option json)
    (status : Z) (bodyBytes : string) (log : list Request) :
  HTTPClient c (build_request c method path body) = Replied status bodyBytes ->
  DoRequest c method path body log =
    (if 400 <=? status then Err (APIError status (error_message bodyBytes)) else Ok bodyBytes,
     log ++ [build_request c method path body]).
Proof.
  intros Hreply. unfold DoRequest, send. run. rewrite Hreply.
  destruct (400 <=? status); [| reflexivity].
  unfold error_message.
  destruct (Unmarshal_bytes bodyBytes APIResponse.zero) as [[d [msg |] m] | e]; reflexivity.
Qed.

Section CheckRead.
Import checkResource.

(** C1 (as amended).  When the service answers the read request of a check
    with a status of 400 or more, 404 included, the client returns the
    error built by the one format "API error (%d): %s" from the status
    and the message; [Read] reports it as a single "Error Reading Check"
    error diagnostic whose text carries the status number, and leaves the
    state as it was. *)
Theorem Check_Read_error_status
    (c : Client) (state : Model) (status : Z) (body : string) (log : list Request) :
  HTTPClient c (build_request c "GET" ("/v1/checks/" +:+ ValueString (ID state)) None)
    = Replied status body ->
  400 <= status ->
  fst (GetCheck c (ValueString (ID state)) log)
    = Err (APIError status (error_message body)) /\
  Format (APIError status (error_message body)) = "API error (%d): %s" /\
  fst (Read c state log)
    = {| Diagnostics :=
           [diag.NewErrorDiagnostic "Error Reading Check"
              ("Could not read check ID " +:+ ValueString (ID state) +:+ ": "
               +:+ "API error (" +:+ pretty status +:+ "): " +:+ error_message body)];
         State := state |}.
Proof.
  intros Hreply Hstatus.
  assert (Hget : GetCheck c (ValueString (ID state)) log
                 = (Err (APIError status (error_message body)),
                    log ++ [build_request c "GET" ("/v1/checks/" +:+ ValueString (ID state)) None])).
  { unfold GetCheck. run. rewrite (DoRequest_reply _ _ _ _ _ _ _ Hreply).
    apply Z.leb_le in Hstatus. now rewrite Hstatus. }
  split; [now rewrite Hget | split; [reflexivity |]].
  unfold Read. run. now rewrite Hget.
Qed.

Lemma Check_Read_error_status_witness :
  fst (Read (client_of (replies 404 (js "{'error':'check not found'}"))) a_check_state [])
  = {| Diagnostics :=
         [diag.NewErrorDiagnostic "Error Reading Check"
            "Could not read check ID chk_1: API error (404): check not found"];
       State := a_check_state |}.
Proof.
  apply (Check_Read_error_status
           (client_of (replies 404 (js "{'error':'check not found'}"))) a_check_state
           404 (js "{'error':'check not found'}") []);
    [reflexivity | lia].
Defined.

(** C1 (counterexample).  The error for a 404 reply and the error for a 500
    reply are built by the same constructor from the same format; nothing
    but the number sets the first apart. *)
Lemma Check_Read_404_is_generic_api_error :
  exists e404 e500,
    outcome (GetCheck (client_of (replies 404 (js "{'error':'check not found'}"))) "chk_1")
      = Err e404 /\
    outcome (GetCheck (client_of (replies 500 (js "{'error':'check not found'}"))) "chk_1")
      = Err e500 /\
    e404 = APIError 404 "check not found" /\
    e500 = APIError 500 "check not found" /\
    Format e404 = Format e500.
Proof.
  exists (APIError 404 "check not found"), (APIError 500 "check not found").
  repeat split; reflexivity.
Qed.

End CheckRead.

(** *** Reading a notification channel *)

Section ChannelRead.
Import notificationChannelResource.

(** C6 (as amended).  When [Read] succeeds (it reports no error), the
    channel the service returned was decoded, and the state of the
    response has the [config] and the [id] of the prior state, and the
    [org_id], [name], [type], [enabled], [created_at] and [updated_at] of
    that channel. *)
Theorem NotificationChannel_Read_frame (c : Client) (state : Model) (log : list Request) :
  diag.HasError (Diagnostics (fst (Read c state log))) = false ->
  exists channel,
    fst (GetNotificationChannel c (ValueString (ID state)) log) = Ok channel /\
    Config (State (fst (Read c state log))) = Config state /\
    ID (State (fst (Read c state log))) = ID state /\
    OrgID (State (fst (Read c state log))) = Known (NotificationChannel.OrgID channel) /\
    Name (State (fst (Read c state log))) = Known (NotificationChannel.Name channel) /\
    Type_ (State (fst (Read c state log))) = Known (NotificationChannel.Type_ channel) /\
    Enabled (State (fst (Read c state log))) = Known (NotificationChannel.Enabled channel) /\
    CreatedAt (State (fst (Read c state log))) = Known (NotificationChannel.CreatedAt channel) /\
    UpdatedAt (State (fst (Read c state log))) = Known (NotificationChannel.UpdatedAt channel).
Proof.
  unfold Read. run.
  destruct (GetNotificationChannel c (ValueString (ID state)) log) as [[channel | err] log'];
    simpl; intros Hok.
  - exists channel. repeat split.
  - discriminate.
Qed.

Lemma NotificationChannel_Read_frame_witness :
  exists channel,
    fst (GetNotificationChannel (client_of (replies 200 redacted_reply)) "ch_1" []) = Ok channel /\
    Config (State (fst (Read (client_of (replies 200 redacted_reply)) a_channel_state [])))
      = Config a_channel_state /\
    Name (State (fst (Read (client_of (replies 200 redacted_reply)) a_channel_state [])))
      = Known "ops-renamed".
Proof.
  destruct (NotificationChannel_Read_frame
              (client_of (replies 200 redacted_reply)) a_channel_state [] eq_refl)
    as (channel & Hget & Hcfg & _ & _ & Hname & _).
  exists channel. split; [exact Hget |]. split; [exact Hcfg |].
  rewrite Hname. f_equal.
  assert (Ok channel = fst (GetNotificationChannel (client_of (replies 200 redacted_reply))
                              "ch_1" [])) as E by (symmetry; exact Hget).
  vm_compute in E. injection E as ->. reflexivity.
Defined.

(** C6 (counterexample).  A successful [Read] does not take the [id] from
    the reply: the service names another id, the state keeps its own. *)
Lemma NotificationChannel_Read_keeps_id :
  exists channel,
    fst (GetNotificationChannel (client_of (replies 200 redacted_reply)) "ch_1" []) = Ok channel /\
    Diagnostics (fst (Read (client_of (replies 200 redacted_reply)) a_channel_state [])) = [] /\
    NotificationChannel.ID channel = "ch_other" /\
    ID (State (fst (Read (client_of (replies 200 redacted_reply)) a_channel_state [])))
      = Known "ch_1" /\
    ID (State (fst (Read (client_of (replies 200 redacted_reply)) a_channel_state [])))
      <> Known (NotificationChannel.ID channel).
Proof.
  eexists. split; [vm_compute; reflexivity |].
  repeat split; try reflexivity. vm_compute. discriminate.
Qed.

End ChannelRead.

(** *** The requests of the operations *)

Lemma DoRequest_log (c : Client) (method path : string) (body : option json)
    (log : list Request) :
  snd (DoRequest c method path body log) =
    match HTTPClient c (build_request c method path body) with
    | RequestRejected _ => log
    | _ => log ++ [build_request c method path body]
    end.
Proof.
  unfold DoRequest, send. run.
  destruct (HTTPClient c (build_request c method path body)); reflexivity.
Qed.

Lemma DoRequest_calls (c : Client) (method path : string) (body : option json) (req : Request) :
  In req (snd (DoRequest c method path body [])) -> req = build_request c method path body.
Proof.
  rewrite DoRequest_log.
  destruct (HTTPClient c (build_request c method path body)); simpl; intuition.
Qed.

Section CheckConfig.
Import checkResource.

Lemma UpdateCheck_log (c : Client) (id : string) (req : UpdateCheckRequest.t)
    (log : list Request) :
  snd (UpdateCheck c id req log)
  = snd (DoRequest c "PUT" ("/v1/checks/" +:+ id) (Some (UpdateCheckRequest.marshal req)) log).
Proof.
  unfold UpdateCheck. run.
  now destruct (DoRequest c "PUT" ("/v1/checks/" +:+ id) _ log).
Qed.

Lemma CreateCheck_log (c : Client) (req : CreateCheckRequest.t) (log : list Request) :
  snd (CreateCheck c req log)
  = snd (DoRequest c "POST" "/v1/checks" (Some (CreateCheckRequest.marshal req)) log).
Proof.
  unfold CreateCheck. run.
  now destruct (DoRequest c "POST" "/v1/checks" _ log).
Qed.

Lemma no_config_json (v : tfString) :
  IsNull v = true \/ ValueString v = "" ->
  (negb (IsNull v) && negb (String.eqb (ValueString v) ""))%bool = false.
Proof.
  intros [-> | ->]; [reflexivity |]. now rewrite andb_false_r.
Qed.

Lemma some_config_json (v : tfString) :
  IsNull v = false -> ValueString v <> "" ->
  (negb (IsNull v) && negb (String.eqb (ValueString v) ""))%bool = true.
Proof.
  intros -> Hne. simpl. destruct (String.eqb (ValueString v) "") eqn:E; [| reflexivity].
  apply String.eqb_eq in E. contradiction.
Qed.

(** C2 (what the code does).  For a plan with neither a [config] map nor a
    non-empty [config_json], [Create] stops with the "Missing Configuration"
    error before any request, but [Update] has no such case: when the
    regions convert and the request can be built, it sends the PUT request
    with [config] set to [null], and any diagnostic it reports is the
    "Error Updating Check" of a failed call, never a configuration error. *)
Theorem Check_Update_without_config
    (c : Client) (plan prior : Model) (regions : option (list string)) (log : list Request) :
  IsNull (ConfigJSON plan) = true \/ ValueString (ConfigJSON plan) = "" ->
  IsNull (Config plan) = true ->
  ElementsAs (Regions plan) = Ok regions ->
  (forall e, HTTPClient c (update_without_config c plan regions) <> RequestRejected e) ->
  Create c plan log = ({| Diagnostics := [missing_configuration]; State := None |}, log) /\
  snd (Update c plan prior log) = log ++ [update_without_config c plan regions] /\
  Method (update_without_config c plan regions) = "PUT" /\
  (exists body, Body (update_without_config c plan regions) = Some body /\
                member "config" body = Some JNull) /\
  (forall d, In d (Diagnostics (fst (Update c plan prior log))) ->
             diag.Summary d = "Error Updating Check").
Proof.
  intros Hjson Hcfg Hregions Hsent.
  pose proof (no_config_json _ Hjson) as Hcond.
  split; [| split; [| split; [| split]]].
  - unfold Create. rewrite Hcond, Hcfg. reflexivity.
  - unfold Update. rewrite Hcond, Hcfg, Hregions. simpl. run.
    match goal with
    | |- context [UpdateCheck c ?id ?r log] =>
        pose proof (UpdateCheck_log c id r log) as Hlog;
        destruct (UpdateCheck c id r log) as [[check | err] log'] eqn:E
    end; simpl in *; subst log'; rewrite DoRequest_log;
      fold (update_without_config c plan regions);
      pose proof (Hsent) as Hs;
      destruct (HTTPClient c (update_without_config c plan regions)) eqn:Ho;
      try reflexivity; exfalso; eapply Hs; reflexivity.
  - reflexivity.
  - eexists. split; reflexivity.
  - unfold Update. rewrite Hcond, Hcfg, Hregions. simpl. run.
    match goal with
    | |- context [UpdateCheck c ?id ?r log] =>
        destruct (UpdateCheck c id r log) as [[check | err] log']
    end; simpl; intros d Hd; [contradiction |].
    destruct Hd as [<- | []]. reflexivity.
Qed.

Lemma Check_Update_without_config_witness :
  Create (client_of (replies 200 a_check_reply)) plan_without_config []
    = ({| Diagnostics := [missing_configuration]; State := None |}, []) /\
  snd (Update (client_of (replies 200 a_check_reply)) plan_without_config a_check_state [])
    = [update_without_config (client_of (replies 200 a_check_reply)) plan_without_config
         (Some ["na-east-ewr"])] /\
  (forall d,
      In d (Diagnostics (fst (Update (client_of (replies 200 a_check_reply))
                                plan_without_config a_check_state []))) ->
      diag.Summary d = "Error Updating Check").
Proof.
  destruct (Check_Update_without_config (client_of (replies 200 a_check_reply))
              plan_without_config a_check_state (Some ["na-east-ewr"]) [])
    as (Hcreate & Hupdate & _ & _ & Hdiags).
  - left; reflexivity.
  - reflexivity.
  - reflexivity.
  - intros e; discriminate.
  - split; [exact Hcreate | split; [exact Hupdate | exact Hdiags]].
Defined.

(** At that plan the update goes through without any diagnostic when the
    service accepts it. *)
Example Check_Update_without_config_accepted :
  Diagnostics (fst (Update (client_of (replies 200 a_check_reply))
                      plan_without_config a_check_state [])) = [].
Proof. vm_compute. reflexivity. Qed.

(** C4.  When [config_json] is neither null nor empty, every request that
    [Create] sends carries as [config] the map decoded from [config_json];
    the [config] map of the plan plays no part in what is sent. *)
Theorem Check_Create_config_json_wins (c : Client) (plan : Model) (req : Request) :
  IsNull (ConfigJSON plan) = false ->
  ValueString (ConfigJSON plan) <> "" ->
  In req (calls (Create c plan)) ->
  (exists m body,
      Unmarshal_bytes (ValueString (ConfigJSON plan)) None = Ok m /\
      Method req = "POST" /\
      Body req = Some body /\
      member "config" body = Some (enc_map m)) /\
  (forall cfg : tfMap,
      calls (Create c (with_config cfg (ConfigJSON plan) plan)) = calls (Create c plan)).
Proof.
  intros Hnull Hne Hreq.
  pose proof (some_config_json _ Hnull Hne) as Hcond.
  split.
  - revert Hreq. unfold calls, Create. rewrite Hcond.
    destruct (Unmarshal_bytes (ValueString (ConfigJSON plan)) None) as [m | e];
      [| simpl; contradiction].
    destruct (ElementsAs (Regions plan)) as [regions | d]; [| simpl; contradiction].
    run.
    match goal with
    | |- context [CreateCheck c ?r []] =>
        pose proof (CreateCheck_log c r []) as Hlog;
        destruct (CreateCheck c r []) as [[check | err] log'] eqn:E
    end; simpl in *; subst log'; intros Hin; apply DoRequest_calls in Hin; subst req;
      exists m; eexists; repeat split; reflexivity.
  - intros cfg. unfold calls, Create. simpl. rewrite Hcond.
    destruct (Unmarshal_bytes (ValueString (ConfigJSON plan)) None) as [m | e];
      [| reflexivity].
    destruct (ElementsAs (Regions plan)) as [regions | d]; [| reflexivity].
    run.
    match goal with
    | |- context [CreateCheck c ?r []] =>
        destruct (CreateCheck c r []) as [[check | err] log']
    end; reflexivity.
Qed.

Lemma Check_Create_config_json_wins_witness :
  exists req body,
    calls (Create (client_of (replies 201 a_check_reply)) plan_with_both) = [req] /\
    Body req = Some body /\
    member "config" body
      = Some (enc_map (Some {[ "url" := JStr "https://x"; "method" := JStr "GET" ]})).
Proof.
  eexists. 
  destruct (Check_Create_config_json_wins (client_of (replies 201 a_check_reply))
              plan_with_both
              (build_request (client_of (replies 201 a_check_reply)) "POST" "/v1/checks"
                 (Some (CreateCheckRequest.marshal
                    {| CreateCheckRequest.Name := "api";
                       CreateCheckRequest.Type_ := "https";
                       CreateCheckRequest.Config :=
                         Some {[ "url" := JStr "https://x"; "method" := JStr "GET" ]};
                       CreateCheckRequest.IntervalSeconds := 60;
                       CreateCheckRequest.Regions := Some ["na-east-ewr"];
                       CreateCheckRequest.Enabled := true;
                       CreateCheckRequest.Inverted := None;
                       CreateCheckRequest.SimultaneousRegions := Some false;
                       CreateCheckRequest.RecheckOnFailure := Some false;
                       CreateCheckRequest.ExpiresAfterSeconds := None |}))))
    as ((m & body & Hm & _ & Hbody & Hcfg) & _).
  - reflexivity.
  - discriminate.
  - vm_compute. left. reflexivity.
  - exists body. split; [vm_compute; reflexivity |]. split; [exact Hbody |].
    rewrite Hcfg. vm_compute in Hm. injection Hm as <-. reflexivity.
Defined.

End CheckConfig.

(** *** Updating an alert rule *)

Section AlertRuleUpdate.
Import alertRuleResource.






End AlertRuleUpdate.

(** *** Resolution of the API key *)

Section ProviderConfigure.
Import quismonProvider.

Lemma default_base_url_set (b : string) :
  String.eqb (if String.eqb b "" then "https://api.quismon.com" else b) "" = false.
Proof. destruct (String.eqb b "") eqn:E; [reflexivity | exact E]. Qed.

(** The fallback begins by probing the first candidate. *)
Lemma readAPIKeyFromState_probes (h : Host) :
  exists rest, calls (readAPIKeyFromState h) = Stat "terraform.tfstate" :: rest.
Proof.
  unfold calls, readAPIKeyFromState, findStateFile, candidates. simpl.
  unfold os_Stat, os_ReadFile. run.
  repeat match goal with
         | |- context [if ?b then _ else _] => destruct b
         | |- context [match ?x with _ => _ end] => destruct x
         end; simpl; eexists; reflexivity.
Qed.

(** C7 (as amended).  With known configuration values, [Configure] reports
    no error and hands out a client.  When the declared key (the
    configured [api_key] if it is not null, else [QUISMON_API_KEY]) is not
    empty, that key is used and no file is touched.  When it is empty, the
    state file is consulted: a key found there is used and reported by one
    warning; without one the key stays empty and nothing is reported. *)
Theorem Configure_api_key_resolution (h : Host) (net : Transport) (config : Model) :
  IsUnknown (APIKey config) = false ->
  IsUnknown (BaseURL config) = false ->
  diag.HasError (Diagnostics (outcome (Configure h net config))) = false /\
  exists c,
    State (outcome (Configure h net config)) = Some c /\
    if String.eqb (declared_api_key h config) "" then
      calls (Configure h net config) = calls (readAPIKeyFromState h) /\
      if String.eqb (fst (outcome (readAPIKeyFromState h))) "" then
        client.APIKey c = "" /\ Diagnostics (outcome (Configure h net config)) = []
      else
        client.APIKey c = fst (outcome (readAPIKeyFromState h)) /\
        Diagnostics (outcome (Configure h net config))
          = [state_key_warning (snd (outcome (readAPIKeyFromState h)))]
    else
      calls (Configure h net config) = [] /\
      client.APIKey c = declared_api_key h config /\
      Diagnostics (outcome (Configure h net config)) = [].
Proof.
  intros Hkey Hurl.
  unfold Configure, declared_api_key, outcome, calls. rewrite Hkey, Hurl. simpl.
  unfold New.
  set (baseURL := if negb (IsNull (BaseURL config)) then ValueString (BaseURL config)
                  else Getenv h "QUISMON_BASE_URL").
  generalize (default_base_url_set baseURL).
  generalize (if String.eqb baseURL "" then "https://api.quismon.com" else baseURL).
  intros url Hset. rewrite Hset.
  destruct (IsNull (APIKey config)); simpl;
    match goal with
    | |- context [String.eqb ?declared "" ] =>
        destruct (String.eqb declared "") eqn:Hdecl
    end; run.
  all: try (destruct (readAPIKeyFromState h []) as [[stateKey warning] log'] eqn:Hread; simpl;
            destruct (String.eqb stateKey "") eqn:Hstate; simpl).
  all: split; [reflexivity |]; eexists; (split; [reflexivity |]).
  all: try (apply String.eqb_eq in Hdecl; rewrite Hdecl).
  all: repeat split.
Qed.

Lemma Configure_api_key_resolution_witness :
  (exists c,
      State (outcome (Configure (host_with "qm_from_env") (replies 200 "")
                        (config_of (Known "qm_declared")))) = Some c /\
      client.APIKey c = "qm_declared" /\
      calls (Configure (host_with "qm_from_env") (replies 200 "")
               (config_of (Known "qm_declared"))) = []) /\
  (exists c,
      State (outcome (Configure (host_with "") (replies 200 "") (config_of Null))) = Some c /\
      client.APIKey c = "qm_from_state" /\
      diag.HasError (Diagnostics (outcome (Configure (host_with "") (replies 200 "")
                                             (config_of Null)))) = false).
Proof.
  split.
  - destruct (Configure_api_key_resolution (host_with "qm_from_env") (replies 200 "")
                (config_of (Known "qm_declared")) eq_refl eq_refl)
      as (_ & c & Hc & H).
    exists c. split; [exact Hc |]. simpl in H. destruct H as (Hcalls & Hk & _).
    split; [exact Hk | exact Hcalls].
  - destruct (Configure_api_key_resolution (host_with "") (replies 200 "")
                (config_of Null) eq_refl eq_refl)
      as (Hok & c & Hc & H).
    exists c. split; [exact Hc |]. split; [| exact Hok].
    vm_compute in H. destruct H as (_ & Hk & _). exact Hk.
Defined.

(** C7 (counterexample).  With [api_key] configured as the empty string and
    [QUISMON_API_KEY] set, the state file is consulted all the same and its
    key is the one used: the environment variable does not come before the
    state file. *)
Lemma Configure_state_file_despite_environment :
  Getenv (host_with "qm_from_env") "QUISMON_API_KEY" = "qm_from_env" /\
  calls (Configure (host_with "qm_from_env") (replies 200 "") (config_of (Known "")))
    = [Stat "terraform.tfstate"; ReadFile "/work/terraform.tfstate"] /\
  client.APIKey <$> State (outcome (Configure (host_with "qm_from_env") (replies 200 "")
                                      (config_of (Known ""))))
    = Some "qm_from_state".
Proof. repeat split; vm_compute; reflexivity. Qed.

End ProviderConfigure.

(* ===================================================================== *)
(** ** Further properties of the client *)

(** *** The Authorization header *)

Lemma trim_left_head (s : string) :
  match trim_left s with
  | EmptyString => True
  | String c _ => is_space c = false
  end.
Proof.
  induction s as [| c r IH]; simpl; [exact I |].
  destruct (is_space c) eqn:E; [exact IH | exact E].
Qed.

Lemma trim_right_head (c : ascii) (r : string) :
  trim_right (String c r) = EmptyString \/ exists r', trim_right (String c r) = String c r'.
Proof.
  simpl. destruct (trim_right r); [destruct (is_space c) |]; eauto.
Qed.

Lemma trim_right_idem (s : string) : trim_right (trim_right s) = trim_right s.
Proof.
  induction s as [| c r IH]; simpl; [reflexivity |].
  destruct (trim_right r) as [| d r'] eqn:E.
  - destruct (is_space c) eqn:Hc; simpl; [reflexivity | now rewrite Hc].
  - change (trim_right (String c (String d r'))) with
      (match trim_right (String d r') with
       | EmptyString => if is_space c then EmptyString else String c EmptyString
       | x => String c x
       end).
    now rewrite IH.
Qed.

Lemma TrimSpace_idem (s : string) : TrimSpace (TrimSpace s) = TrimSpace s.
Proof.
  unfold TrimSpace.
  pose proof (trim_left_head s) as Hhead.
  destruct (trim_left s) as [| c r] eqn:E; [reflexivity |].
  destruct (trim_right_head c r) as [H | [r' H]]; rewrite H; [reflexivity |].
  simpl trim_left. rewrite Hhead, <- H. apply trim_right_idem.
Qed.

Lemma trim_right_app (a t : string) :
  trim_right t <> EmptyString -> trim_right (a +:+ t) = a +:+ trim_right t.
Proof.
  intros Ht. induction a as [| c a IH]; simpl; [reflexivity |].
  rewrite IH. change (String c a +:+ trim_right t) with (String c (a +:+ trim_right t)).
  destruct (a +:+ trim_right t) eqn:E; [| reflexivity].
  destruct a; simpl in E; [contradiction | discriminate].
Qed.

(** X1.  A key that is empty once trimmed gives no [Authorization] header.
    Any other key gives exactly one, whose value begins with "Bearer " and is
    the trimmed key itself when that already begins so, and "Bearer "
    followed by the trimmed key otherwise; giving that value as the key
    yields the same header again. *)
Theorem authorization_bearer (apiKey : string) :
  (TrimSpace apiKey = EmptyString -> authorization apiKey = []) /\
  (TrimSpace apiKey <> EmptyString ->
   exists v,
     authorization apiKey = [("Authorization", v)] /\
     String.prefix "Bearer " v = true /\
     v = (if String.prefix "Bearer " (TrimSpace apiKey) then TrimSpace apiKey
          else "Bearer " +:+ TrimSpace apiKey) /\
     authorization v = [("Authorization", v)]).
Proof.
  split.
  - unfold authorization. intros ->. reflexivity.
  - intros Hne.
    assert (E : String.eqb (TrimSpace apiKey) "" = false) by (now apply String.eqb_neq).
    assert (Hidem : forall v, TrimSpace v = v -> v <> EmptyString ->
                              String.prefix "Bearer " v = true ->
                              authorization v = [("Authorization", v)]).
    { intros v Hv Hnv Hpv. unfold authorization. cbv zeta. rewrite Hv, Hpv.
      apply String.eqb_neq in Hnv. now rewrite Hnv. }
    destruct (String.prefix "Bearer " (TrimSpace apiKey)) eqn:Hp.
    + exists (TrimSpace apiKey). split; [| split; [exact Hp | split; [reflexivity |]]].
      * unfold authorization. cbv zeta. now rewrite E, Hp.
      * apply Hidem; [apply TrimSpace_idem | exact Hne | exact Hp].
    + exists ("Bearer " +:+ TrimSpace apiKey).
      assert (Hpre : String.prefix "Bearer " ("Bearer " +:+ TrimSpace apiKey) = true).
      { simpl. repeat (destruct (ascii_dec _ _); [| congruence]).
        now destruct (TrimSpace apiKey). }
      split; [| split; [exact Hpre | split; [reflexivity |]]].
      * unfold authorization. cbv zeta. now rewrite E, Hp.
      * apply Hidem; [| discriminate | exact Hpre].
        unfold TrimSpace at 1.
        change (trim_left ("Bearer " +:+ TrimSpace apiKey))
          with ("Bearer " +:+ TrimSpace apiKey).
        assert (Hr : trim_right (TrimSpace apiKey) = TrimSpace apiKey)
          by (unfold TrimSpace; apply trim_right_idem).
        rewrite trim_right_app; rewrite Hr; [reflexivity | exact Hne].
Qed.

Lemma authorization_bearer_witness :
  authorization "   " = [] /\
  authorization " qm_key " = [("Authorization", "Bearer qm_key")] /\
  authorization "Bearer qm_key" = [("Authorization", "Bearer qm_key")].
Proof.
  split; [| split].
  - apply (proj1 (authorization_bearer "   ")). reflexivity.
  - destruct (proj2 (authorization_bearer " qm_key ")) as (v & Hv & _ & -> & _);
      [discriminate | exact Hv].
  - destruct (proj2 (authorization_bearer "Bearer qm_key")) as (v & Hv & _ & -> & _);
      [discriminate | exact Hv].
Defined.

(** *** One attempt for each call *)

(** X2.  [DoRequest] hands at most one request to the transport, after those
    already sent, and never a second one whatever the outcome.  It returns
    the body exactly when the transport replied with a status below 400, and
    then the body is the reply's, byte for byte. *)
Theorem DoRequest_single_attempt
    (c : Client) (method path : string) (body : option json) (log : list Request) :
  (snd (DoRequest c method path body log) = log \/
   snd (DoRequest c method path body log) = log ++ [build_request c method path body]) /\
  (forall data,
      fst (DoRequest c method path body log) = Ok data <->
      exists status,
        HTTPClient c (build_request c method path body) = Replied status data /\ status < 400).
Proof.
  split.
  - rewrite DoRequest_log.
    destruct (HTTPClient c (build_request c method path body)); auto.
  - intros data. unfold DoRequest, send. run.
    destruct (HTTPClient c (build_request c method path body)) as [e | e | st e | st b];
      simpl; try (split; [discriminate | intros (s & [=] & _)]).
    destruct (400 <=? st) eqn:Hst.
    + split.
      * destruct (Unmarshal_bytes b APIResponse.zero) as [[d [m |] mt] | e]; discriminate.
      * intros (s & [= <- <-] & Hlt). apply Z.leb_le in Hst. lia.
    + apply Z.leb_gt in Hst. split.
      * intros [= <-]. exists st. split; [reflexivity | exact Hst].
      * intros (s & [= <- <-] & _). reflexivity.
Qed.

(** *** Deleting *)

(** X3.  [Delete] of a check looks only at the status of the reply: below
    400 it reports nothing, whatever the body says, and from 400 on it
    reports the API error; either way the one DELETE request was sent and the
    state of the response is the prior state. *)
Theorem Check_Delete_by_status
    (c : Client) (state : checkResource.Model) (status : Z) (body : string)
    (log : list Request) :
  HTTPClient c (build_request c "DELETE"
                  ("/v1/checks/" +:+ ValueString (checkResource.ID state)) None)
    = Replied status body ->
  checkResource.Delete c state log =
    ({| Diagnostics :=
          if 400 <=? status then
            [diag.NewErrorDiagnostic "Error Deleting Check"
               ("Could not delete check, unexpected error: "
                +:+ Error (APIError status (error_message body)))]
          else [];
        State := state |},
     log ++ [build_request c "DELETE"
               ("/v1/checks/" +:+ ValueString (checkResource.ID state)) None]).
Proof.
  intros Hreply. unfold checkResource.Delete, DeleteCheck. run.
  rewrite (DoRequest_reply _ _ _ _ _ _ _ Hreply).
  destruct (400 <=? status); reflexivity.
Qed.

Lemma Check_Delete_by_status_witness :
  Diagnostics (fst (checkResource.Delete (client_of (replies 200 refused_in_envelope))
                      a_check_state [])) = [] /\
  diag.HasError (Diagnostics (fst (checkResource.Read
                                     (client_of (replies 200 refused_in_envelope))
                                     a_check_state []))) = true.
Proof.
  split.
  - rewrite (Check_Delete_by_status (client_of (replies 200 refused_in_envelope))
               a_check_state 200 refused_in_envelope [] eq_refl).
    reflexivity.
  - reflexivity.
Defined.

(** *** Lookup by name *)

Lemma find_first {A} (p : A -> bool) (l : list A) :
  match List.find p l with
  | Some x =>
      exists before after,
        l = before ++ x :: after /\ p x = true /\ Forall (fun y => p y = false) before
  | None => Forall (fun y => p y = false) l
  end.
Proof.
  induction l as [| a l IH]; simpl; [constructor |].
  destruct (p a) eqn:E.
  - exists [], l. repeat split; [exact E | constructor].
  - destruct (List.find p l) as [x |].
    + destruct IH as (before & after & -> & Hx & Hb).
      exists (a :: before), after. repeat split; [exact Hx | now constructor].
    + now constructor.
Qed.

(** X4.  [GetCheckByName] sends what [ListChecks] sends and nothing more.
    When the list decodes, it returns the first check of the list whose name
    is exactly the one asked for, and the error "check not found: NAME" when
    no check has that name; when the list call fails, it returns that
    failure. *)
Theorem GetCheckByName_first_match (c : Client) (name : string) (log : list Request) :
  snd (GetCheckByName c name log) = snd (ListChecks c log) /\
  match fst (ListChecks c log) with
  | Err e => fst (GetCheckByName c name log) = Err e
  | Ok checks =>
      match fst (GetCheckByName c name log) with
      | Ok check =>
          exists before after,
            default [] checks = before ++ check :: after /\
            Check.Name check = name /\
            Forall (fun other => Check.Name other <> name) before
      | Err e =>
          e = NotFoundByName "check" name /\
          Error e = "check not found: " +:+ name /\
          Forall (fun other => Check.Name other <> name) (default [] checks)
      end
  end.
Proof.
  unfold GetCheckByName. run.
  destruct (ListChecks c log) as [[checks | e] log']; simpl; split; try reflexivity.
  pose proof (find_first (fun check => String.eqb (Check.Name check) name)
                (default [] checks)) as H.
  destruct (List.find _ (default [] checks)) as [check |].
  - destruct H as (before & after & Hl & Hn & Hb).
    exists before, after. split; [exact Hl |]. split; [now apply String.eqb_eq |].
    eapply Forall_impl; [exact Hb |]. intros x Hx. now apply String.eqb_neq.
  - repeat split. eapply Forall_impl; [exact H |]. intros x Hx. now apply String.eqb_neq.
Qed.

Example GetCheckByName_takes_the_first :
  Check.ID <$> (match outcome (GetCheckByName (client_of (replies 200 two_checks_reply)) "api")
                with Ok check => Some check | Err _ => None end) = Some "chk_1" /\
  outcome (GetCheckByName (client_of (replies 200 two_checks_reply)) "API")
    = Err (NotFoundByName "check" "API").
Proof. split; vm_compute; reflexivity. Qed.

Section ChannelDataSource.
Import notificationChannelDataSource.

(** X5.  The channel data source, when the list of channels decodes: it sets
    a state exactly when a channel has the name of the configuration, and
    then [id] and [type] are those of the first such channel of the list;
    otherwise it sets no state and reports "notification channel not found:
    NAME".  The name is compared as it is, case included. *)
Theorem ChannelDataSource_Read_by_name
    (c : Client) (data : Model) (log : list Request)
    (channels : option (list NotificationChannel.t)) :
  fst (ListNotificationChannels c log) = Ok channels ->
  match State (fst (Read c data log)) with
  | Some s =>
      Diagnostics (fst (Read c data log)) = [] /\
      Name s = Name data /\
      exists before channel after,
        default [] channels = before ++ channel :: after /\
        NotificationChannel.Name channel = ValueString (Name data) /\
        Forall (fun other => NotificationChannel.Name other <> ValueString (Name data)) before /\
        ID s = Known (NotificationChannel.ID channel) /\
        Type_ s = Known (NotificationChannel.Type_ channel)
  | None =>
      Forall (fun other => NotificationChannel.Name other <> ValueString (Name data))
        (default [] channels) /\
      Diagnostics (fst (Read c data log))
        = [diag.NewErrorDiagnostic "Error Reading Notification Channel"
             ("notification channel not found: " +:+ ValueString (Name data))]
  end.
Proof.
  unfold Read, GetNotificationChannelByName. run.
  destruct (ListNotificationChannels c log) as [[chs | e] log']; simpl; intros [= ->].
  pose proof (find_first
                (fun channel => String.eqb (NotificationChannel.Name channel)
                                  (ValueString (Name data)))
                (default [] channels)) as H.
  destruct (List.find _ (default [] channels)) as [channel |]; simpl.
  - destruct H as (before & after & Hl & Hn & Hb).
    split; [reflexivity |]. split; [reflexivity |].
    exists before, channel, after. split; [exact Hl |].
    split; [now apply String.eqb_eq |].
    split; [| split; reflexivity].
    eapply Forall_impl; [exact Hb |]. intros x Hx. now apply String.eqb_neq.
  - split; [| reflexivity].
    eapply Forall_impl; [exact H |]. intros x Hx. now apply String.eqb_neq.
Qed.

Lemma ChannelDataSource_Read_by_name_witness :
  exists s,
    State (fst (Read (client_of (replies 200 two_channels_reply)) (a_channel_query "ops") []))
      = Some s /\
    ID s = Known "ch_1" /\ Type_ s = Known "email" /\
    Diagnostics (fst (Read (client_of (replies 200 two_channels_reply))
                        (a_channel_query "ops") [])) = [].
Proof.
  pose proof (ChannelDataSource_Read_by_name (client_of (replies 200 two_channels_reply))
                (a_channel_query "ops") []
                (Some [ {| NotificationChannel.ID := "ch_1"; NotificationChannel.OrgID := "";
                           NotificationChannel.Name := "ops";
                           NotificationChannel.Type_ := "email";
                           NotificationChannel.Config := None;
                           NotificationChannel.Enabled := false;
                           NotificationChannel.CreatedAt := "";
                           NotificationChannel.UpdatedAt := "" |};
                        {| NotificationChannel.ID := "ch_2"; NotificationChannel.OrgID := "";
                           NotificationChannel.Name := "ops";
                           NotificationChannel.Type_ := "slack";
                           NotificationChannel.Config := None;
                           NotificationChannel.Enabled := false;
                           NotificationChannel.CreatedAt := "";
                           NotificationChannel.UpdatedAt := "" |} ]) eq_refl) as H.
  destruct (State (fst (Read (client_of (replies 200 two_channels_reply))
                          (a_channel_query "ops") []))) as [s |] eqn:E.
  - exists s. split; [reflexivity |].
    destruct H as (Hdiags & _).
    vm_compute in E. injection E as <-.
    split; [reflexivity |]. split; [reflexivity | exact Hdiags].
  - vm_compute in E. discriminate.
Defined.

End ChannelDataSource.

(** *** The check resource *)

Lemma Append_nil (d : diag.Diagnostic) : diag.Append d [] = [d].
Proof.
  unfold diag.Append. rewrite bool_decide_eq_false_2; [reflexivity | apply not_elem_of_nil].
Qed.

Lemma AddError_nil (summary detail : string) :
  diag.AddError summary detail [] = [diag.NewErrorDiagnostic summary detail].
Proof. apply Append_nil. Qed.

Lemma ElementsAs_error (l : tfList) (d : diag.Diagnostic) :
  ElementsAs l = Err d -> d = conversion_error.
Proof.
  destruct l as [| | vs]; simpl; try discriminate; [now intros [= <-] |].
  destruct (mapM _ vs); [discriminate | now intros [= <-]].
Qed.



Section CheckResource.
Import checkResource.

(** X6.  [Read] of a check never changes [id], [config], [config_json],
    [regions] and [iac_locked], whatever the service replies.  When it
    reports an error the whole state is the prior one; when it reports none,
    the check was decoded and the other attributes are the ones of the
    reply, [last_checked] being null when the reply has none. *)
Theorem Check_Read_refresh (c : Client) (state : Model) (log : list Request) :
  ID (State (fst (Read c state log))) = ID state /\
  Config (State (fst (Read c state log))) = Config state /\
  ConfigJSON (State (fst (Read c state log))) = ConfigJSON state /\
  Regions (State (fst (Read c state log))) = Regions state /\
  IaCLocked (State (fst (Read c state log))) = IaCLocked state /\
  (diag.HasError (Diagnostics (fst (Read c state log))) = true ->
   State (fst (Read c state log)) = state) /\
  (diag.HasError (Diagnostics (fst (Read c state log))) = false ->
   exists check,
     fst (GetCheck c (ValueString (ID state)) log) = Ok check /\
     OrgID (State (fst (Read c state log))) = Known (Check.OrgID check) /\
     Name (State (fst (Read c state log))) = Known (Check.Name check) /\
     Type_ (State (fst (Read c state log))) = Known (Check.Type_ check) /\
     IntervalSeconds (State (fst (Read c state log))) = Known (Check.IntervalSeconds check) /\
     Enabled (State (fst (Read c state log))) = Known (Check.Enabled check) /\
     HealthStatus (State (fst (Read c state log))) = Known (Check.HealthStatus check) /\
     LastChecked (State (fst (Read c state log))) = optional_string (Check.LastChecked check) /\
     UpdatedAt (State (fst (Read c state log))) = Known (Check.UpdatedAt check)).
Proof.
  unfold Read. run.
  destruct (GetCheck c (ValueString (ID state)) log) as [[check | err] log']; simpl.
  - repeat split; try discriminate. intros _. exists check. repeat split.
  - repeat split; try discriminate.
Qed.

Example Check_Read_keeps_regions :
  Regions (State (fst (Read (client_of (replies 200 drifted_check_reply)) a_check_state [])))
    = Known [Known "na-east-ewr"] /\
  IntervalSeconds (State (fst (Read (client_of (replies 200 drifted_check_reply))
                                 a_check_state []))) = Known 300 /\
  LastChecked (State (fst (Read (client_of (replies 200 drifted_check_reply))
                             a_check_state []))) = Known "2025-04-04T00:00:00Z".
Proof. repeat split; vm_compute; reflexivity. Qed.



(** X8.  Every request [Update] of a check sends is a PUT to the check of
    the plan whose body holds all of [name], [type], [config],
    [interval_seconds], [regions], [enabled], [simultaneous_regions] and
    [recheck_on_failure], changed or not, and never [inverted] nor
    [expires_after_seconds]. *)
Theorem Check_Update_full_replacement (c : Client) (plan prior : Model) (req : Request) :
  In req (calls (Update c plan prior)) ->
  Method req = "PUT" /\
  URL req = BaseURL c +:+ "/v1/checks/" +:+ ValueString (ID plan) /\
  exists body,
    Body req = Some body /\
    Forall (fun tag => has_member tag body = true)
      ["name"; "type"; "config"; "interval_seconds"; "regions"; "enabled";
       "simultaneous_regions"; "recheck_on_failure"] /\
    has_member "inverted" body = false /\
    has_member "expires_after_seconds" body = false.
Proof.
  unfold calls, Update.
  destruct (if (negb (IsNull (ConfigJSON plan))
                && negb (String.eqb (ValueString (ConfigJSON plan)) ""))%bool
            then _ else _) as [configMap | d]; [| simpl; contradiction].
  destruct (ElementsAs (Regions plan)) as [regions | d]; [| simpl; contradiction].
  run.
  match goal with
  | |- context [UpdateCheck c ?id ?r []] =>
      pose proof (UpdateCheck_log c id r []) as Hlog;
      destruct (UpdateCheck c id r []) as [[check | err] log'] eqn:E
  end; simpl in *; subst log'; intros Hin; apply DoRequest_calls in Hin; subst req;
    (split; [reflexivity |]); (split; [reflexivity |]);
    eexists; (split; [reflexivity |]); (split; [| split; reflexivity]);
    repeat constructor.
Qed.

Lemma Check_Update_full_replacement_witness :
  exists req body,
    calls (Update (client_of (replies 200 a_check_reply)) a_check_state a_check_state) = [req] /\
    Body req = Some body /\
    has_member "name" body = true /\
    has_member "regions" body = true /\
    has_member "expires_after_seconds" body = false.
Proof.
  eexists.
  destruct (Check_Update_full_replacement (client_of (replies 200 a_check_reply))
              a_check_state a_check_state
              (hd (build_request (client_of (replies 200 a_check_reply)) "" "" None)
                 (calls (Update (client_of (replies 200 a_check_reply))
                           a_check_state a_check_state))))
    as (_ & _ & body & Hbody & Hall & _ & Hexp).
  - vm_compute. left. reflexivity.
  - exists body. split; [vm_compute; reflexivity |]. split; [exact Hbody |].
    inversion Hall as [| ? ? Hname Hrest]; subst.
    split; [exact Hname |]. split; [| exact Hexp].
    do 3 (inversion Hrest as [| ? ? _ Hrest']; subst; clear Hrest; rename Hrest' into Hrest).
    inversion Hrest as [| ? ? Hregions _]. exact Hregions.
Defined.

(** X9.  Every request [Create] of a check sends has a body with [name],
    [type], [config], [interval_seconds] and [enabled]; [regions] is in it
    exactly when the plan lists at least one region; [simultaneous_regions]
    and [recheck_on_failure] are in it exactly when the plan's value is not
    null; [inverted] and [expires_after_seconds] are never in it. *)
Theorem Check_Create_body (c : Client) (plan : Model) (req : Request) :
  In req (calls (Create c plan)) ->
  exists body regions,
    Body req = Some body /\
    ElementsAs (Regions plan) = Ok regions /\
    Forall (fun tag => has_member tag body = true)
      ["name"; "type"; "config"; "interval_seconds"; "enabled"] /\
    has_member "regions" body = negb (bool_decide (default [] regions = [])) /\
    has_member "simultaneous_regions" body = negb (IsNull (SimultaneousRegions plan)) /\
    has_member "recheck_on_failure" body = negb (IsNull (RecheckOnFailure plan)) /\
    has_member "inverted" body = false /\
    has_member "expires_after_seconds" body = false.
Proof.
  unfold calls, Create.
  destruct (if (negb (IsNull (ConfigJSON plan))
                && negb (String.eqb (ValueString (ConfigJSON plan)) ""))%bool
            then _ else _) as [configMap | d]; [| simpl; contradiction].
  destruct (ElementsAs (Regions plan)) as [regions | d]; [| simpl; contradiction].
  run.
  match goal with
  | |- context [CreateCheck c ?r []] =>
      pose proof (CreateCheck_log c r []) as Hlog;
      destruct (CreateCheck c r []) as [[check | err] log'] eqn:E
  end; simpl in *; subst log'; intros Hin; apply DoRequest_calls in Hin; subst req;
    eexists _, regions; (split; [reflexivity |]); (split; [reflexivity |]);
    clear E;
    destruct regions as [[| r rs] |];
    destruct (SimultaneousRegions plan); destruct (RecheckOnFailure plan);
    repeat split; repeat constructor.
Qed.

Lemma Check_Create_body_witness :
  exists req body,
    calls (Create (client_of (replies 201 a_check_reply))
             (with_regions (Known []) a_check_state)) = [req] /\
    Body req = Some body /\
    has_member "regions" body = false /\
    has_member "simultaneous_regions" body = true.
Proof.
  eexists.
  destruct (Check_Create_body (client_of (replies 201 a_check_reply))
              (with_regions (Known []) a_check_state)
              (hd (build_request (client_of (replies 201 a_check_reply)) "" "" None)
                 (calls (Create (client_of (replies 201 a_check_reply))
                           (with_regions (Known []) a_check_state)))))
    as (body & regions & Hbody & Hregions & _ & Hr & Hs & _).
  - vm_compute. left. reflexivity.
  - exists body. split; [vm_compute; reflexivity |]. split; [exact Hbody |].
    vm_compute in Hregions. injection Hregions as <-.
    split; [exact Hr | exact Hs].
Defined.

(** X10.  When the [regions] of the plan do not convert (the list is unknown,
    or one of its elements is null or unknown), neither [Create] nor [Update]
    sends anything; each reports one error, [Create] sets no state and
    [Update] leaves the prior state. *)
Theorem Check_regions_conversion_error
    (c : Client) (plan prior : Model) (d : diag.Diagnostic) (log : list Request) :
  ElementsAs (Regions plan) = Err d ->
  snd (Create c plan log) = log /\
  snd (Update c plan prior log) = log /\
  State (fst (Create c plan log)) = None /\
  State (fst (Update c plan prior log)) = prior /\
  (exists e, Diagnostics (fst (Create c plan log)) = [e] /\ diag.is_error e = true) /\
  (exists e, Diagnostics (fst (Update c plan prior log)) = [e] /\ diag.is_error e = true).
Proof.
  intros Hr. pose proof (ElementsAs_error _ _ Hr) as ->.
  unfold Create, Update. rewrite Hr.
  destruct (negb (IsNull (ConfigJSON plan)) && negb (String.eqb (ValueString (ConfigJSON plan)) ""))%bool;
    [destruct (Unmarshal_bytes (ValueString (ConfigJSON plan)) None) |
     destruct (negb (IsNull (Config plan)))];
    run; rewrite ?Append_nil; repeat split; eauto.
Qed.

Lemma Check_regions_conversion_error_witness :
  snd (Update (client_of (replies 200 a_check_reply))
         (with_regions (Known [Known "na-east-ewr"; Null]) a_check_state) a_check_state [])
    = [] /\
  snd (Create (client_of (replies 200 a_check_reply))
         (with_regions Unknown a_check_state) []) = [].
Proof.
  split.
  - apply (Check_regions_conversion_error (client_of (replies 200 a_check_reply))
             (with_regions (Known [Known "na-east-ewr"; Null]) a_check_state) a_check_state
             conversion_error [] eq_refl).
  - apply (Check_regions_conversion_error (client_of (replies 200 a_check_reply))
             (with_regions Unknown a_check_state) a_check_state
             conversion_error [] eq_refl).
Defined.

End CheckResource.

(** *** Updating a notification channel *)

Section ChannelUpdate.
Import notificationChannelResource.

Lemma UpdateNotificationChannel_log (c : Client) (id : string)
    (req : UpdateNotificationChannelRequest.t) (log : list Request) :
  snd (UpdateNotificationChannel c id req log)
  = snd (DoRequest c "PUT" ("/v1/notification-channels/" +:+ id)
           (Some (UpdateNotificationChannelRequest.marshal req)) log).
Proof.
  unfold UpdateNotificationChannel. run.
  now destruct (DoRequest c "PUT" _ _ log).
Qed.

(** X11.  Every request [Update] of a notification channel sends has a body
    with [name], [config] and [enabled] and never with [type].  When the
    update reports no error, the state of the response is the plan with only
    [updated_at] taken from the reply: a planned [type] is recorded in the
    state although it was never sent. *)
Theorem Channel_Update_never_sends_type (c : Client) (plan prior : Model) (log : list Request) :
  (forall req, In req (calls (Update c plan prior)) ->
     exists body,
       Body req = Some body /\
       has_member "name" body = true /\ has_member "config" body = true /\
       has_member "enabled" body = true /\ has_member "type" body = false) /\
  (diag.HasError (Diagnostics (fst (Update c plan prior log))) = true ->
     State (fst (Update c plan prior log)) = prior) /\
  (diag.HasError (Diagnostics (fst (Update c plan prior log))) = false ->
     exists channel,
       fst (UpdateNotificationChannel c (ValueString (ID plan)) (updateReq plan) log)
         = Ok channel /\
       State (fst (Update c plan prior log))
       = {| ID := ID plan; OrgID := OrgID plan; Name := Name plan; Type_ := Type_ plan;
            Config := Config plan; Enabled := Enabled plan; CreatedAt := CreatedAt plan;
            UpdatedAt := Known (NotificationChannel.UpdatedAt channel) |}).
Proof.
  split; [| split].
  - intros req. unfold calls, Update. run.
    pose proof (UpdateNotificationChannel_log c (ValueString (ID plan)) (updateReq plan) [])
      as Hlog.
    destruct (UpdateNotificationChannel c (ValueString (ID plan)) (updateReq plan) [])
      as [[channel | err] log']; simpl in *; subst log';
      intros Hin; apply DoRequest_calls in Hin; subst req;
      eexists; repeat split.
  - unfold Update. run.
    destruct (UpdateNotificationChannel c (ValueString (ID plan)) (updateReq plan) log)
      as [[channel | err] log']; simpl; [discriminate | reflexivity].
  - unfold Update. run.
    destruct (UpdateNotificationChannel c (ValueString (ID plan)) (updateReq plan) log)
      as [[channel | err] log']; simpl.
    + intros _. exists channel. split; reflexivity.
    + discriminate.
Qed.

Example Channel_Update_records_unsent_type :
  Type_ (State (fst (Update (client_of (replies 200 redacted_reply))
                       a_channel_plan a_channel_state []))) = Known "slack" /\
  (member "type" <$> (hd_error (calls (Update (client_of (replies 200 redacted_reply))
                                         a_channel_plan a_channel_state)) ≫= Body))
    = Some None.
Proof. split; vm_compute; reflexivity. Qed.

End ChannelUpdate.

(** *** The region catalogue *)

Section Regions.
Import regionsDataSource.

Lemma insert_sorted_perm (x : region) (l : list region) : insert_sorted x l ≡ₚ x :: l.
Proof.
  induction l as [| y r IH]; simpl; [reflexivity |].
  destruct (less y x); [| reflexivity].
  rewrite IH. apply Permutation_swap.
Qed.

Lemma sort_Slice_perm (l : list region) : sort_Slice l ≡ₚ l.
Proof.
  induction l as [| x r IH]; simpl; [reflexivity |].
  rewrite insert_sorted_perm. now rewrite IH.
Qed.

Lemma ascending_sound (l : list region) :
  ascending l = true -> StronglySorted (fun a b => less a b = true) l.
Proof.
  induction l as [| x r IH]; simpl; [constructor |].
  intros [Hx Hr]%andb_true_iff. constructor; [auto |].
  apply Forall_forall. intros y Hy.
  rewrite forallb_forall in Hx. apply Hx. now apply list_elem_of_In.
Qed.

Lemma less_asym (a b : region) : less a b = true -> less b a = true -> a = b.
Proof.
  unfold less, String.ltb. rewrite (String.compare_antisym (code b) (code a)).
  destruct (String.compare (code a) (code b)); discriminate.
Qed.

(** X12.  The regions data source lists every region of its table exactly
    once, in strictly ascending byte order of the codes, and that is the only
    such arrangement of the table.  [ValidateRegion] accepts a code exactly
    when it is a code of the table or one of the three old-style codes,
    which the data source does not list. *)
Theorem regions_listing_and_validation :
  State Read = info <$> sort_Slice regions /\
  sort_Slice regions ≡ₚ regions /\
  StronglySorted (fun a b => less a b = true) (sort_Slice regions) /\
  (forall l, l ≡ₚ regions -> StronglySorted (fun a b => less a b = true) l ->
             l = sort_Slice regions) /\
  (forall c : string,
      ValidateRegion c = None <-> In c (map code regions) \/ In c old_style_codes) /\
  Forall (fun c => ~ In c (map code regions)) old_style_codes.
Proof.
  assert (Hsorted : StronglySorted (fun a b => less a b = true) (sort_Slice regions))
    by (apply ascending_sound; vm_compute; reflexivity).
  split; [reflexivity |]. split; [apply sort_Slice_perm |]. split; [exact Hsorted |].
  split; [| split].
  - intros l Hperm Hl.
    apply (StronglySorted_unique_strong (fun a b => less a b = true)); auto.
    + intros x1 x2 _ _. apply less_asym.
    + now rewrite Hperm, sort_Slice_perm.
  - intros c. unfold ValidateRegion.
    assert (Hlist : validRegions = map code regions ++ old_style_codes) by reflexivity.
    destruct (existsb (String.eqb c) validRegions) eqn:E; cbn [negb].
    + split; [intros _ | reflexivity].
      apply existsb_exists in E as (x & Hx & ->%String.eqb_eq).
      rewrite Hlist in Hx. now apply in_app_or.
    + split; [discriminate |]. intros Hin. exfalso.
      assert (existsb (String.eqb c) validRegions = true); [| congruence].
      apply existsb_exists. exists c. split; [| apply String.eqb_refl].
      rewrite Hlist. now apply in_or_app.
  - repeat constructor; vm_compute; intuition discriminate.
Qed.

End Regions.

(** *** The key of a state file *)

Lemma signup_key_step (statePath : string) (r : Resource.t) (rest : list Resource.t) :
  (exists key, holds_key r key /\
               signup_key statePath (r :: rest) = (key, state_warning statePath)) \/
  ((forall key, ~ holds_key r key) /\
   signup_key statePath (r :: rest) = signup_key statePath rest).
Proof.
  simpl. unfold holds_key.
  destruct (String.eqb (Resource.Type_ r) "quismon_signup") eqn:Ety; simpl.
  - apply String.eqb_eq in Ety.
    destruct (Resource.Instances r) as [[| inst insts] |] eqn:Ei; simpl.
    + right. split; [| reflexivity]. intros key (_ & _ & i & l & a & [=] & _).
    + destruct (Instance.Attributes inst) as [attrs |] eqn:Ea; simpl.
      * destruct (attrs !! "api_key") as [[| | | key | |] |] eqn:Ek;
          try (right; split; [| reflexivity];
               intros key' (_ & _ & i & l & a & [= <- <-] & Ha & Hk); congruence).
        destruct (String.eqb key "") eqn:Ekey; simpl.
        -- apply String.eqb_eq in Ekey. subst key.
           right. split; [| reflexivity].
           intros key' (_ & Hne & i & l & a & [= <- <-] & Ha & Hk). congruence.
        -- apply String.eqb_neq in Ekey. left. exists key. split; [| reflexivity].
           split; [exact Ety |]. split; [exact Ekey |]. eauto 6.
      * right. split.
        -- intros key' (_ & _ & i & l & a & [= <- <-] & Ha & Hk). congruence.
        -- now rewrite lookup_empty.
    + right. split; [| reflexivity]. intros key (_ & _ & i & l & a & [=] & _).
  - right. split; [| reflexivity]. apply String.eqb_neq in Ety.
    intros key (Hty & _). contradiction.
Qed.

(** X13.  The scan of the resources of a state file returns the key of the
    first resource that holds one (a signup resource whose first instance
    has a non-empty string [api_key]), together with the warning; instances
    after the first are never looked at.  When no resource holds a key, both
    the key and the warning are empty. *)
Theorem signup_key_first_match (statePath : string) (resources : list Resource.t) :
  (fst (signup_key statePath resources) = EmptyString /\
   snd (signup_key statePath resources) = EmptyString /\
   Forall (fun r => forall key, ~ holds_key r key) resources)
  \/
  (exists before r after,
     resources = before ++ r :: after /\
     holds_key r (fst (signup_key statePath resources)) /\
     snd (signup_key statePath resources) = state_warning statePath /\
     Forall (fun other => forall key, ~ holds_key other key) before).
Proof.
  induction resources as [| r rest IH]; [left; repeat split; constructor |].
  destruct (signup_key_step statePath r rest) as [(key & Hkey & ->) | (Hnone & ->)].
  - right. exists [], r, rest. repeat split; [apply Hkey .. | constructor].
  - destruct IH as [(Hk & Hw & Hall) | (before & x & after & -> & Hx & Hw & Hb)].
    + left. repeat split; [exact Hk | exact Hw | now constructor].
    + right. exists (r :: before), x, after. repeat split; [apply Hx .. | exact Hw | now constructor].
Qed.

Example signup_key_first_instance_only :
  signup_key "/work/terraform.tfstate"
    [signup_with [Some {[ "org_id" := JStr "org_1" ]}; Some {[ "api_key" := JStr "qm_second" ]}];
     signup_with [Some {[ "api_key" := JNum "42" ]}];
     signup_with [Some {[ "api_key" := JStr "qm_third" ]}]]
  = ("qm_third", state_warning "/work/terraform.tfstate").
Proof. vm_compute. reflexivity. Qed.

(** *** Reading the state file *)

Lemma signup_key_pair (statePath : string) (resources : list Resource.t) :
  (fst (signup_key statePath resources) = EmptyString /\
   snd (signup_key statePath resources) = EmptyString) \/
  (fst (signup_key statePath resources) <> EmptyString /\
   snd (signup_key statePath resources) = state_warning statePath).
Proof.
  induction resources as [| r rest IH]; [left; split; reflexivity |].
  destruct (signup_key_step statePath r rest) as [(key & Hkey & ->) | (_ & ->)];
    [right; split; [apply Hkey | reflexivity] | exact IH].
Qed.

(** X14.  The fallback touches the file system in a fixed order: it probes
    [terraform.tfstate] first and, only when that is absent,
    [.terraform/terraform.tfstate]; it reads the first one found and no
    other.  When neither exists, or the file found cannot be read or does
    not decode as a state, it gives the empty key and the empty warning
    without any report.  A key and a warning always come together. *)
Theorem readAPIKeyFromState_file_access (h : Host) :
  (stat_ok h "terraform.tfstate" = true ->
   Abs h "terraform.tfstate" <> EmptyString ->
   calls (readAPIKeyFromState h)
     = [Stat "terraform.tfstate"; ReadFile (Abs h "terraform.tfstate")]) /\
  (stat_ok h "terraform.tfstate" = false ->
   stat_ok h ".terraform/terraform.tfstate" = true ->
   Abs h ".terraform/terraform.tfstate" <> EmptyString ->
   calls (readAPIKeyFromState h)
     = [Stat "terraform.tfstate"; Stat ".terraform/terraform.tfstate";
        ReadFile (Abs h ".terraform/terraform.tfstate")]) /\
  (stat_ok h "terraform.tfstate" = false ->
   stat_ok h ".terraform/terraform.tfstate" = false ->
   readAPIKeyFromState h []
     = ((EmptyString, EmptyString),
        [Stat "terraform.tfstate"; Stat ".terraform/terraform.tfstate"])) /\
  (file h (outcome (findStateFile h)) = None ->
   outcome (readAPIKeyFromState h) = (EmptyString, EmptyString)) /\
  (forall data e,
      file h (outcome (findStateFile h)) = Some data ->
      Unmarshal_bytes data TerraformState.zero = Err e ->
      outcome (readAPIKeyFromState h) = (EmptyString, EmptyString)) /\
  (fst (outcome (readAPIKeyFromState h)) = EmptyString
   <-> snd (outcome (readAPIKeyFromState h)) = EmptyString).
Proof.
  unfold calls, outcome, readAPIKeyFromState, findStateFile, candidates.
  simpl first_existing. unfold os_Stat, os_ReadFile. run.
  repeat split.
  - intros -> Hne. simpl. apply String.eqb_neq in Hne. rewrite Hne. simpl.
    repeat match goal with |- context [match ?x with _ => _ end] => destruct x end; reflexivity.
  - intros -> -> Hne. simpl. apply String.eqb_neq in Hne. rewrite Hne. simpl.
    repeat match goal with |- context [match ?x with _ => _ end] => destruct x end; reflexivity.
  - intros -> ->. reflexivity.
  - destruct (stat_ok h "terraform.tfstate"); simpl;
      [| destruct (stat_ok h ".terraform/terraform.tfstate"); simpl];
      try match goal with |- context [String.eqb ?p ""] => destruct (String.eqb p ""); simpl end;
      intros Hf; try rewrite Hf; reflexivity.
  - destruct (stat_ok h "terraform.tfstate"); simpl;
      [| destruct (stat_ok h ".terraform/terraform.tfstate"); simpl];
      try match goal with |- context [String.eqb ?p ""] => destruct (String.eqb p ""); simpl end;
      intros data e Hf He; try (rewrite Hf; simpl; rewrite He); reflexivity.
  - destruct (stat_ok h "terraform.tfstate"); simpl;
      [| destruct (stat_ok h ".terraform/terraform.tfstate"); simpl];
      try match goal with |- context [String.eqb ?p ""] => destruct (String.eqb p ""); simpl end;
      try reflexivity;
      match goal with |- context [file h ?p] => destruct (file h p) as [data |] end;
      simpl; try reflexivity;
      destruct (Unmarshal_bytes data TerraformState.zero) as [st | e]; simpl; try reflexivity;
      (match goal with |- context [signup_key ?p ?l] =>
         destruct (signup_key_pair p l) as [[-> ->] | [Hk ->]] end;
       [reflexivity | contradiction]).
  - destruct (stat_ok h "terraform.tfstate"); simpl;
      [| destruct (stat_ok h ".terraform/terraform.tfstate"); simpl];
      try match goal with |- context [String.eqb ?p ""] => destruct (String.eqb p ""); simpl end;
      try reflexivity;
      match goal with |- context [file h ?p] => destruct (file h p) as [data |] end;
      simpl; try reflexivity;
      destruct (Unmarshal_bytes data TerraformState.zero) as [st | e]; simpl; try reflexivity;
      (match goal with |- context [signup_key ?p ?l] =>
         destruct (signup_key_pair p l) as [[-> ->] | [Hk ->]] end;
       [reflexivity | discriminate]).
Qed.

Example readAPIKeyFromState_reads_first_candidate :
  readAPIKeyFromState (host_with "") []
  = (("qm_from_state", state_warning "/work/terraform.tfstate"),
     [Stat "terraform.tfstate"; ReadFile "/work/terraform.tfstate"]).
Proof. vm_compute. reflexivity. Qed.

(** *** Resolution of the base URL, and unknown values *)

Section ProviderBaseURL.
Import quismonProvider.

(** X15.  With known configuration values [Configure] hands out a client
    whose base URL is never empty: it is the configured [base_url] when
    that is neither null nor empty, [QUISMON_BASE_URL] when [base_url] is
    null and the variable is not empty, and "https://api.quismon.com"
    otherwise; a [base_url] configured as the empty string gives the
    default, not the variable.  The client uses the transport it was given. *)
Theorem Configure_base_url (h : Host) (net : Transport) (config : Model) :
  IsUnknown (APIKey config) = false ->
  IsUnknown (BaseURL config) = false ->
  exists c,
    State (outcome (Configure h net config)) = Some c /\
    client.BaseURL c <> EmptyString /\
    client.BaseURL c = (if String.eqb (declared_base_url h config) ""
                        then "https://api.quismon.com" else declared_base_url h config) /\
    HTTPClient c = net.
Proof.
  intros Hkey Hurl.
  unfold Configure, declared_base_url, outcome. rewrite Hkey, Hurl. simpl.
  unfold New.
  replace (if negb (IsNull (BaseURL config)) then ValueString (BaseURL config)
           else Getenv h "QUISMON_BASE_URL")
    with (if IsNull (BaseURL config) then Getenv h "QUISMON_BASE_URL"
          else ValueString (BaseURL config))
    by (now destruct (IsNull (BaseURL config))).
  set (declared := if IsNull (BaseURL config) then Getenv h "QUISMON_BASE_URL"
                   else ValueString (BaseURL config)).
  pose proof (default_base_url_set declared) as Hset.
  assert (Hne : (if String.eqb declared "" then "https://api.quismon.com" else declared)
                <> EmptyString) by (now apply String.eqb_neq).
  revert Hset Hne.
  generalize (if String.eqb declared "" then "https://api.quismon.com" else declared).
  intros url Hset Hne. rewrite Hset.
  match goal with
  | |- context [String.eqb ?k "" ] =>
      match k with
      | url => fail 1
      | _ => destruct (String.eqb k "")
      end
  end; run.
  - destruct (readAPIKeyFromState h []) as [[stateKey warning] log'].
    destruct (negb (String.eqb stateKey "")); simpl;
      eexists; repeat split; assumption.
  - eexists; repeat split; assumption.
Qed.

Lemma Configure_base_url_witness :
  (exists c,
      State (outcome (Configure (host_with "qm_from_env") (replies 200 "")
                        (config_of (Known "qm_declared")))) = Some c /\
      client.BaseURL c = "https://api.quismon.com") /\
  (exists c,
      State (outcome (Configure (host_with "qm_from_env") (replies 200 "")
                        {| APIKey := Null; BaseURL := Known "http://localhost:8080" |}))
        = Some c /\
      client.BaseURL c = "http://localhost:8080").
Proof.
  split.
  - destruct (Configure_base_url (host_with "qm_from_env") (replies 200 "")
                (config_of (Known "qm_declared")) eq_refl eq_refl) as (c & Hc & _ & Hb & _).
    exists c. split; [exact Hc | exact Hb].
  - destruct (Configure_base_url (host_with "qm_from_env") (replies 200 "")
                {| APIKey := Null; BaseURL := Known "http://localhost:8080" |}
                eq_refl eq_refl) as (c & Hc & _ & Hb & _).
    exists c. split; [exact Hc | exact Hb].
Defined.

(** X16.  When [api_key] or [base_url] is unknown, [Configure] stops before
    anything else: it hands out no client, touches neither the environment's
    files nor the state file, and reports one error for each unknown
    attribute, attached to that attribute. *)
Theorem Configure_unknown_value (h : Host) (net : Transport) (config : Model) :
  IsUnknown (APIKey config) = true \/ IsUnknown (BaseURL config) = true ->
  State (outcome (Configure h net config)) = None /\
  calls (Configure h net config) = [] /\
  Diagnostics (outcome (Configure h net config))
  = (if IsUnknown (APIKey config)
     then [diag.NewAttributeErrorDiagnostic "api_key" "Unknown Quismon API Key" unknown_api_key]
     else [])
    ++ (if IsUnknown (BaseURL config)
        then [diag.NewAttributeErrorDiagnostic "base_url" "Unknown Quismon Base URL"
                unknown_base_url]
        else []).
Proof.
  intros H. unfold Configure, outcome, calls.
  assert (Hdistinct :
            diag.NewAttributeErrorDiagnostic "base_url" "Unknown Quismon Base URL" unknown_base_url
            <> diag.NewAttributeErrorDiagnostic "api_key" "Unknown Quismon API Key" unknown_api_key)
    by discriminate.
  unfold diag.AddAttributeError.
  destruct (IsUnknown (APIKey config)), (IsUnknown (BaseURL config));
    try (destruct H; discriminate); rewrite ?Append_nil.
  - unfold diag.Append at 1.
    rewrite bool_decide_eq_false_2.
    + repeat split.
    + intros Hin. apply list_elem_of_singleton in Hin. contradiction.
  - repeat split.
  - repeat split.
Qed.

Lemma Configure_unknown_value_witness :
  State (outcome (Configure (host_with "qm_from_env") (replies 200 "") (config_of Unknown)))
    = None /\
  calls (Configure (host_with "qm_from_env") (replies 200 "") (config_of Unknown)) = [].
Proof.
  destruct (Configure_unknown_value (host_with "qm_from_env") (replies 200 "")
              (config_of Unknown)) as (Hs & Hc & _).
  - left. reflexivity.
  - split; [exact Hs | exact Hc].
Defined.

End ProviderBaseURL.

(** *** Creating a signup *)

Section SignupCreate.
Import signupResource.

(** X17.  [Create] of a signup with an empty base URL sends nothing and
    reports "base URL is required".  Every request it sends is a POST to the
    quick-signup path of the base URL, without [Authorization] header, whose
    body has the planned [email] and has [org_name] exactly when the planned
    name is not empty.  A state it sets has the organization id of the reply
    as both [id] and [org_id], and the [email] and [org_name] of the plan,
    not of the reply. *)
Theorem signup_Create_request (net : Transport) (r : t) (plan : Model) :
  (baseURL r = EmptyString ->
   Create net r plan []
   = ({| Diagnostics := [diag.NewErrorDiagnostic "Error creating signup" "base URL is required"];
         State := None |}, [])) /\
  (forall req, In req (calls (Create net r plan)) ->
     Method req = "POST" /\
     URL req = baseURL r +:+ "/v1/auth/quick-signup" /\
     (forall v, ~ In ("Authorization", v) (Header req)) /\
     exists body,
       Body req = Some body /\
       member "email" body = Some (JStr (ValueString (Email plan))) /\
       has_member "org_name" body = negb (String.eqb (ValueString (OrgName plan)) "")) /\
  (forall s, State (outcome (Create net r plan)) = Some s ->
     ID s = OrgID s /\ Email s = Email plan /\ OrgName s = OrgName plan /\
     Diagnostics (outcome (Create net r plan)) = []).
Proof.
  split; [| split].
  - intros Hurl. unfold Create, QuickSignup. rewrite Hurl. reflexivity.
  - intros req. unfold calls, Create, QuickSignup.
    destruct (String.eqb (baseURL r) ""); [simpl; contradiction |].
    run. unfold send.
    match goal with |- context [net ?q] => destruct (net q) as [e | e | st e | st b] end;
      simpl;
      try (match goal with
           | |- context [if ?x then _ else _] => destruct x
           end);
      repeat (match goal with
              | |- context [match ?x with _ => _ end] => destruct x
              end);
      simpl; try contradiction;
      (intros [<- | []]; simpl;
       split; [reflexivity |]; split; [reflexivity |];
       split; [intros v [[=] | [[=] | []]] |];
       eexists; split; [reflexivity |]; split; [reflexivity |];
       unfold QuickSignupRequest.marshal; simpl;
       destruct (String.eqb (ValueString (OrgName plan)) ""); reflexivity).
  - intros s. unfold outcome, Create. run.
    destruct (QuickSignup net (baseURL r) _ []) as [[resp | err] log']; simpl.
    + intros [= <-]. repeat split.
    + discriminate.
Qed.

Lemma signup_Create_request_witness :
  Create (replies 200 a_signup_reply) {| baseURL := "" |} (a_signup_plan Unknown) []
  = ({| Diagnostics := [diag.NewErrorDiagnostic "Error creating signup" "base URL is required"];
        State := None |}, []).
Proof.
  apply (proj1 (signup_Create_request (replies 200 a_signup_reply) {| baseURL := "" |}
                  (a_signup_plan Unknown))).
  reflexivity.
Defined.

Example signup_Create_keeps_planned_org_name :
  (OrgName <$> State (outcome (Create (replies 200 a_signup_reply)
                                 {| baseURL := "https://api.quismon.com" |}
                                 (a_signup_plan Unknown)))) = Some Unknown /\
  (APIKey <$> State (outcome (Create (replies 200 a_signup_reply)
                                {| baseURL := "https://api.quismon.com" |}
                                (a_signup_plan Unknown)))) = Some (Known "qm_new").
Proof. split; vm_compute; reflexivity. Qed.

End SignupCreate.

(** *** The import identifier, both ways *)

Section AlertRuleImportRoundTrip.
Import alertRuleResource.

Lemma Split_nonempty (s : string) (sep : ascii) : Split s sep <> [].
Proof.
  intros H. pose proof (Split_length s sep) as Hl. rewrite H in Hl. discriminate.
Qed.

Lemma Split_one (s b : string) (sep : ascii) :
  Split s sep = [b] -> s = b /\ count_char sep b = 0%nat.
Proof.
  revert b. induction s as [| c r IH]; simpl; intros b.
  - intros [= <-]. split; reflexivity.
  - destruct (Ascii.eqb c sep) eqn:E.
    + intros [= _ H]. now apply Split_nonempty in H.
    + destruct (Split r sep) as [| x xs] eqn:Er; [now apply Split_nonempty in Er |].
      intros [= <- ->]. destruct (IH x eq_refl) as [-> Hc].
      split; [reflexivity |]. simpl. now rewrite E.
Qed.

Lemma Split_two (s a b : string) (sep : ascii) :
  Split s sep = [a; b] ->
  s = a +:+ String sep b /\ count_char sep a = 0%nat /\ count_char sep b = 0%nat.
Proof.
  revert a. induction s as [| c r IH]; simpl; intros a; [discriminate |].
  destruct (Ascii.eqb c sep) eqn:E.
  - intros [= <- H]. apply Ascii.eqb_eq in E. subst c.
    apply Split_one in H as [-> Hc]. repeat split. exact Hc.
  - destruct (Split r sep) as [| x xs] eqn:Er; [now apply Split_nonempty in Er |].
    intros [= <- ->]. destruct (IH x eq_refl) as (-> & Hx & Hb).
    repeat split; [simpl; now rewrite E | exact Hb].
Qed.

(** X18.  [ImportState] reports nothing exactly when the identifier has one
    colon.  The two attributes it then sets hold no colon, and joined by a
    colon they give the identifier back. *)
Theorem ImportState_round_trip (id : string) :
  (Diagnostics (ImportState id) = [] <-> count_char ":" id = 1%nat) /\
  (Diagnostics (ImportState id) = [] ->
   exists checkID ruleID,
     CheckID (State (ImportState id)) = Known checkID /\
     ID (State (ImportState id)) = Known ruleID /\
     checkID +:+ ":" +:+ ruleID = id /\
     count_char ":" checkID = 0%nat /\ count_char ":" ruleID = 0%nat).
Proof.
  unfold ImportState. pose proof (Split_length id ":") as Hlen.
  destruct (Nat.eqb (length (Split id ":")) 2) eqn:E; simpl.
  - apply Nat.eqb_eq in E. split; [split; [intros _; lia | reflexivity] |].
    intros _.
    destruct (Split id ":") as [| a [| b [| x xs]]] eqn:Hs; try discriminate.
    apply Split_two in Hs as (-> & Ha & Hb).
    exists a, b. repeat split; assumption.
  - apply Nat.eqb_neq in E. rewrite AddError_nil.
    split; [split; [discriminate | intros H; lia] | discriminate].
Qed.

End AlertRuleImportRoundTrip.

(** *** The OTLP configuration of the organization *)

Lemma DoRequest_ok_reply (c : Client) (method path : string) (body : option json)
    (log : list Request) (data : string) :
  fst (DoRequest c method path body log) = Ok data ->
  exists status,
    HTTPClient c (build_request c method path body) = Replied status data /\ status < 400.
Proof.
  unfold DoRequest, send. run.
  destruct (HTTPClient c (build_request c method path body)) as [e | e | st e | st b];
    simpl; try discriminate.
  destruct (400 <=? st) eqn:Hst.
  - destruct (Unmarshal_bytes b APIResponse.zero) as [[d [m |] mt] | e]; discriminate.
  - intros [= <-]. apply Z.leb_gt in Hst. eauto.
Qed.


Section OTLP.
Import organizationOTLPResource.

Lemma getOTLPConfig_log (c : Client) (log : list Request) :
  snd (getOTLPConfig c log) = snd (DoRequest c "GET" "/v1/org/otlp" None log).
Proof.
  unfold getOTLPConfig. run. now destruct (DoRequest c "GET" "/v1/org/otlp" None log).
Qed.

Lemma getOTLPConfig_ok_reply (c : Client) (log : list Request) (config : OTLPConfigResponse.t) :
  fst (getOTLPConfig c log) = Ok config ->
  exists status body,
    HTTPClient c (build_request c "GET" "/v1/org/otlp" None) = Replied status body.
Proof.
  unfold getOTLPConfig, mbind, mret, Traced_bind, Traced_ret.
  pose proof (DoRequest_ok_reply c "GET" "/v1/org/otlp" None log) as Hok.
  destruct (DoRequest c "GET" "/v1/org/otlp" None log) as [[data | err] log'];
    cbn [fst snd] in *; [| discriminate].
  intros _. destruct (Hok data eq_refl) as (status & Hreply & _). eauto.
Qed.

(** X19.  [Delete] of the OTLP configuration deletes nothing remotely: every
    request it sends is a PUT to the same path as an update, whose body sets
    [enabled] to false and [endpoint] to the empty string.  What it sends
    does not depend on the state, and it never reads the configuration back. *)
Theorem OTLP_Delete_disables (c : Client) (state : Model) (log : list Request) :
  (forall req, In req (calls (Delete c state)) ->
     Method req = "PUT" /\
     URL req = BaseURL c +:+ "/v1/org/otlp" /\
     exists body,
       Body req = Some body /\
       member "enabled" body = Some (JBool false) /\
       member "endpoint" body = Some (JStr "") /\
       has_member "headers" body = false) /\
  (forall other, snd (Delete c state log) = snd (Delete c other log)) /\
  State (fst (Delete c state log)) = state.
Proof.
  split; [| split].
  - intros req. unfold calls, Delete, mbind, mret, Traced_bind, Traced_ret.
    pose proof (DoRequest_calls c "PUT" "/v1/org/otlp" (Some (enc_map (Some deleteReq))) req)
      as Hcalls.
    destruct (DoRequest c "PUT" "/v1/org/otlp" (Some (enc_map (Some deleteReq))) [])
      as [[data | err] log']; cbn [fst snd] in *; intros Hin; rewrite (Hcalls Hin);
      (split; [reflexivity |]); (split; [reflexivity |]);
      eexists; (split; [reflexivity |]); repeat split; vm_compute; reflexivity.
  - intros other. unfold Delete, mbind, mret, Traced_bind, Traced_ret.
    now destruct (DoRequest c "PUT" "/v1/org/otlp" (Some (enc_map (Some deleteReq))) log)
      as [[data | err] log'].
  - unfold Delete, mbind, mret, Traced_bind, Traced_ret.
    now destruct (DoRequest c "PUT" "/v1/org/otlp" (Some (enc_map (Some deleteReq))) log)
      as [[data | err] log'].
Qed.

(** X20.  [Create] of the OTLP configuration first writes, then reads back.
    It sends nothing, or the PUT alone, or the PUT followed by a GET of the
    same URL; the GET is sent only after the service answered the PUT with a
    status below 400, and a state is set only when both requests were sent. *)
Theorem OTLP_Create_put_then_get (c : Client) (plan : Model) :
  (calls (Create c plan) = [] /\ State (outcome (Create c plan)) = None) \/
  (exists put,
      calls (Create c plan) = [put] /\ Method put = "PUT" /\
      URL put = BaseURL c +:+ "/v1/org/otlp" /\
      State (outcome (Create c plan)) = None) \/
  (exists put get status body,
      calls (Create c plan) = [put; get] /\
      Method put = "PUT" /\ Method get = "GET" /\
      URL put = BaseURL c +:+ "/v1/org/otlp" /\ URL get = URL put /\
      HTTPClient c put = Replied status body /\ status < 400).
Proof.
  unfold calls, outcome, Create.
  destruct (updateReq plan) as [req | d]; [| left; split; reflexivity].
  unfold mbind, mret, Traced_bind, Traced_ret.
  set (put := build_request c "PUT" "/v1/org/otlp" (Some (enc_map (Some req)))).
  set (get := build_request c "GET" "/v1/org/otlp" None).
  pose proof (DoRequest_log c "PUT" "/v1/org/otlp" (Some (enc_map (Some req))) []) as Hlog.
  pose proof (DoRequest_ok_reply c "PUT" "/v1/org/otlp" (Some (enc_map (Some req))) []) as Hok.
  fold put in Hlog, Hok.
  destruct (DoRequest c "PUT" "/v1/org/otlp" (Some (enc_map (Some req))) [])
    as [[data | err] log']; cbn [fst snd] in *.
  - destruct (Hok data eq_refl) as (status & Hreply & Hstatus).
    rewrite Hreply in Hlog. cbn in Hlog. subst log'.
    pose proof (getOTLPConfig_log c [put]) as Hg. rewrite DoRequest_log in Hg. fold get in Hg.
    pose proof (getOTLPConfig_ok_reply c [put]) as Hgok. fold get in Hgok.
    destruct (getOTLPConfig c [put]) as [[config | err] log'']; cbn [fst snd] in *; subst log''.
    + destruct (Hgok config eq_refl) as (st & b & Hget). rewrite Hget.
      right; right. exists put, get, status, data. repeat split; assumption.
    + destruct (HTTPClient c get).
      * right; left. exists put. repeat split.
      * right; right. exists put, get, status, data. repeat split; assumption.
      * right; right. exists put, get, status, data. repeat split; assumption.
      * right; right. exists put, get, status, data. repeat split; assumption.
  - subst log'. destruct (HTTPClient c put).
    + left. split; reflexivity.
    + right; left. exists put. repeat split.
    + right; left. exists put. repeat split.
    + right; left. exists put. repeat split.
Qed.

Example OTLP_Create_stops_after_refused_put :
  Method <$> calls (Create (client_of (replies 403 (js "{'error':'paid feature'}"))) an_otlp_plan)
    = ["PUT"] /\
  Method <$> calls (Create (client_of (replies 200 otlp_reply_nested)) an_otlp_plan)
    = ["PUT"; "GET"].
Proof. split; vm_compute; reflexivity. Qed.



Example getOTLPConfig_nested_reply :
  OTLPConfigResponse.Enabled <$>
    (match fst (getOTLPConfig (client_of (replies 200 otlp_reply_nested)) []) with
     | Ok config => Some config
     | Err _ => None
     end) = Some true.
Proof. vm_compute. reflexivity. Qed.

End OTLP.
